(** * performance_portal: a shallow embedding of the dashboard script

    The script of [performance_portal.py] reads its secrets, builds an
    Alpaca client, fetches account data through two cached helpers and
    lays out KPIs, a chart and two tables.  This file embeds the script
    in Rocq: Python's [float] as IEEE binary64 with round-to-nearest-even
    written out on [Z], the f-string formats [,.2f] and [.2f], the
    exceptions and their handlers, the widgets as a trace of events and
    the [st.cache_data] decorator as a store of pickled values with an
    explicit clock. *)

From Stdlib Require Import ZArith Lia String Ascii List Bool DecimalString.
From Stdlib Require SpecFloat.
From stdpp Require Import gmap strings.
Import ListNotations.

Local Open Scope string_scope.
Local Open Scope list_scope.
Local Open Scope Z_scope.

(** ** Python floats: IEEE 754 binary64 *)

Module Float.

(** A finite float [FFin neg m e] is [(-1)^neg * m * 2^e] with
    [0 <= m < 2^53] and [emin <= e <= emax - prec]. *)
Inductive pyfloat : Type :=
| FFin (neg : bool) (m e : Z)
| FInf (neg : bool)
| FNan.

Definition prec : Z := 53.
Definition emin : Z := -1074.
Definition emax : Z := 1024.

(** Nearest integer to [p / d] for [0 <= p], [0 < d]; ties go to the
    even neighbour. *)
Definition rne (p d : Z) : Z :=
  let q := p / d in
  match 2 * (p mod d) ?= d with
  | Lt => q
  | Gt => q + 1
  | Eq => if Z.even q then q else q + 1
  end.

(** Whether [2^l <= p / d], for any integer [l]. *)
Definition pow2_le (p d l : Z) : bool :=
  d * 2 ^ Z.max 0 l <=? p * 2 ^ Z.max 0 (- l).

(** [floor (log2 (p / d))] for [0 < p], [0 < d]. *)
Definition ilog2_ratio (p d : Z) : Z :=
  let k := Z.log2 p - Z.log2 d in
  if pow2_le p d k then k else k - 1.

(** Nearest integer to [p / (d * 2^e)]. *)
Definition scaled_rne (p d e : Z) : Z :=
  rne (p * 2 ^ Z.max 0 (- e)) (d * 2 ^ Z.max 0 e).

(** The binary64 nearest to [(-1)^neg * p / d], ties to even; values
    that round to [2^1024] or more become infinities, values below
    half the least subnormal become signed zeros. *)
Definition round64 (neg : bool) (p d : Z) : pyfloat :=
  if p =? 0 then FFin neg 0 emin
  else
    let e := Z.max (ilog2_ratio p d - (prec - 1)) emin in
    let m := scaled_rne p d e in
    let e' := if m =? 2 ^ prec then e + 1 else e in
    let m' := if m =? 2 ^ prec then 2 ^ (prec - 1) else m in
    if emax - prec <? e' then FInf neg else FFin neg m' e'.

(** The value of a finite float in units of [2^emin]: an integer. *)
Definition scaled (m e : Z) : Z := m * 2 ^ (e - emin).

Definition signed (neg : bool) (z : Z) : Z := if neg then - z else z.

(** [float(n)] for a Python int; an int beyond the range of floats
    gives an infinity here, where Python raises [OverflowError]. *)
Definition of_Z (z : Z) : pyfloat := round64 (z <? 0) (Z.abs z) 1.

(** [x - y]. *)
Definition fsub (x y : pyfloat) : pyfloat :=
  match x, y with
  | FNan, _ | _, FNan => FNan
  | FInf sx, FInf sy => if Bool.eqb sx sy then FNan else FInf sx
  | FInf sx, FFin _ _ _ => FInf sx
  | FFin _ _ _, FInf sy => FInf (negb sy)
  | FFin sx mx ex, FFin sy my ey =>
      let d := signed sx (scaled mx ex) - signed sy (scaled my ey) in
      if d =? 0 then FFin (sx && negb sy) 0 emin
      else round64 (d <? 0) (Z.abs d) (2 ^ (- emin))
  end.

(** [x * y]. *)
Definition fmul (x y : pyfloat) : pyfloat :=
  match x, y with
  | FNan, _ | _, FNan => FNan
  | FInf sx, FInf sy => FInf (xorb sx sy)
  | FInf sx, FFin sy my _ => if my =? 0 then FNan else FInf (xorb sx sy)
  | FFin sx mx _, FInf sy => if mx =? 0 then FNan else FInf (xorb sx sy)
  | FFin sx mx ex, FFin sy my ey =>
      round64 (xorb sx sy) (scaled mx ex * scaled my ey) (2 ^ (- emin) * 2 ^ (- emin))
  end.

(** The same float in the Standard Library's specification of
    IEEE 754, against which the operations above are checked. *)
Definition to_spec (x : pyfloat) : SpecFloat.spec_float :=
  match x with
  | FNan => SpecFloat.S754_nan
  | FInf s => SpecFloat.S754_infinity s
  | FFin s (Zpos p) e => SpecFloat.S754_finite s p e
  | FFin s _ _ => SpecFloat.S754_zero s
  end.

End Float.
Import Float.

(** ** Python built-ins used by the script *)

(** Exceptions, by class.  [except APIError] catches the first only;
    [except Exception] catches all of them.  [ValueError] stands for its
    subclasses as well, such as pandas' [OutOfBoundsDatetime]. *)
Inductive exn : Type :=
| APIError (msg : string)
| KeyError (key : string)
| TypeError
| ValueError
| AttributeError
| OverflowError
| RecursionError
| OtherError (name : string).

(** The outcome of evaluating a Python expression. *)
Inductive result (A : Type) : Type :=
| Ok (a : A)
| Raise (e : exn).
Arguments Ok {A} a.
Arguments Raise {A} e.

Definition bind {A B : Type} (r : result A) (k : A -> result B) : result B :=
  match r with
  | Ok a => k a
  | Raise e => Raise e
  end.

Notation "'let!' x ':=' r 'in' k" := (bind r (fun x => k))
  (at level 10, x pattern, r at level 100, k at level 200).

(** A field of an entity returned by the client.  An [Entity] wraps
    the JSON object of the answer and looks an attribute up in it: the
    REST API sends numbers as JSON strings and missing values as [null];
    a key the answer does not carry at all is [VAbsent], and reading
    that attribute raises [AttributeError]. *)
Inductive pyval : Type :=
| VNone
| VStr (s : string)
| VAbsent.

Module PyStr.

Definition is_space (c : ascii) : bool :=
  let n := Z.of_nat (nat_of_ascii c) in
  (n =? 32) || ((9 <=? n) && (n <=? 13)) || ((28 <=? n) && (n <=? 31)).

Definition digit_of (c : ascii) : option Z :=
  let n := Z.of_nat (nat_of_ascii c) in
  if (48 <=? n) && (n <=? 57) then Some (n - 48) else None.

Definition is_digit (c : ascii) : bool :=
  match digit_of c with Some _ => true | None => false end.

Definition is_lower (c : ascii) : bool :=
  let n := Z.of_nat (nat_of_ascii c) in (97 <=? n) && (n <=? 122).

Definition is_upper (c : ascii) : bool :=
  let n := Z.of_nat (nat_of_ascii c) in (65 <=? n) && (n <=? 90).

Definition to_upper (c : ascii) : ascii :=
  if is_lower c then ascii_of_nat (nat_of_ascii c - 32) else c.

Definition to_lower (c : ascii) : ascii :=
  if is_upper c then ascii_of_nat (nat_of_ascii c + 32) else c.

Fixpoint lower (s : string) : string :=
  match s with
  | EmptyString => EmptyString
  | String c r => String (to_lower c) (lower r)
  end.

Fixpoint lstrip (s : string) : string :=
  match s with
  | String c r => if is_space c then lstrip r else s
  | EmptyString => EmptyString
  end.

Fixpoint rev_onto (s acc : string) : string :=
  match s with
  | EmptyString => acc
  | String c r => rev_onto r (String c acc)
  end.

Definition rev (s : string) : string := rev_onto s EmptyString.

(** [s.strip()] *)
Definition strip (s : string) : string := rev (lstrip (rev (lstrip s))).

(** [s.title()] on ASCII text: a letter that follows a letter is
    lowered, any other letter is raised. *)
Fixpoint title_from (prev_cased : bool) (s : string) : string :=
  match s with
  | EmptyString => EmptyString
  | String c r =>
      if is_lower c then
        String (if prev_cased then c else to_upper c) (title_from true r)
      else if is_upper c then
        String (if prev_cased then to_lower c else c) (title_from true r)
      else String c (title_from false r)
  end.

Definition title (s : string) : string := title_from false s.

(** A run of digits in which single underscores may separate digits:
    the value so far, the number of digits read, and what follows. *)
Fixpoint read_digits (prev_digit : bool) (acc n : Z) (s : string) : Z * Z * string :=
  match s with
  | EmptyString => (acc, n, s)
  | String c r =>
      match digit_of c with
      | Some d => read_digits true (10 * acc + d) (n + 1) r
      | None =>
          if Ascii.eqb c "_" && prev_digit &&
             match r with String c' _ => is_digit c' | EmptyString => false end
          then read_digits false acc n r
          else (acc, n, s)
      end
  end.

(** An optional sign. *)
Definition read_sign (s : string) : bool * string :=
  match s with
  | String "-" r => (true, r)
  | String "+" r => (false, r)
  | _ => (false, s)
  end.

(** The exponent part: nothing, or [e] or [E], a sign and digits up to
    the end of the text. *)
Definition read_exponent (s : string) : option Z :=
  match s with
  | EmptyString => Some 0
  | String c r =>
      if Ascii.eqb (to_lower c) "e" then
        let '(neg, r1) := read_sign r in
        match read_digits false 0 0 r1 with
        | (v, n, EmptyString) => if 0 <? n then Some (signed neg v) else None
        | _ => None
        end
      else None
  end.

(** A decimal literal [digits [. digits] [exponent]] or [. digits
    [exponent]]: the integer [D] and the power [X] with value
    [D * 10^X]. *)
Definition read_decimal (s : string) : option (Z * Z) :=
  let '(ip, ni, r1) := read_digits false 0 0 s in
  let '(D, nf, r2) :=
    match r1 with
    | String "." r => read_digits false ip 0 r
    | _ => (ip, 0, r1)
    end in
  if 0 <? ni + nf then
    match read_exponent r2 with
    | Some x => Some (D, x - nf)
    | None => None
    end
  else None.

(** [float(s)] for a string. *)
Definition float_of_string (s : string) : result pyfloat :=
  let '(neg, body) := read_sign (strip s) in
  match read_decimal body with
  | Some (D, X) => Ok (round64 neg (D * 10 ^ Z.max 0 X) (10 ^ Z.max 0 (- X)))
  | None =>
      let word := lower body in
      if String.eqb word "inf" || String.eqb word "infinity" then Ok (FInf neg)
      else if String.eqb word "nan" then Ok FNan
      else Raise ValueError
  end.

(** Decimal digits of a natural number. *)
Definition digits (z : Z) : string := NilZero.string_of_uint (N.to_uint (Z.to_N z)).

(** Commas between groups of three digits, counted from the right. *)
Fixpoint group3 (s : string) : string :=
  match s with
  | EmptyString => EmptyString
  | String c r =>
      String c (if (0 <? String.length r)%nat && (String.length r mod 3 =? 0)%nat
                then String "," (group3 r) else group3 r)
  end.

Definition two_digits (z : Z) : string :=
  if z <? 10 then String "0" (digits z) else digits z.

(** An amount of [c] hundredths with two decimals. *)
Definition show_cents (comma neg : bool) (c : Z) : string :=
  (if neg then "-" else "") +:+
  (if comma then group3 (digits (c / 100)) else digits (c / 100)) +:+
  "." +:+ two_digits (c mod 100).

(** A finite magnitude [m * 2^e] in hundredths, to the nearest, ties
    to even. *)
Definition cents_of (m e : Z) : Z :=
  rne (100 * m * 2 ^ Z.max 0 e) (2 ^ Z.max 0 (- e)).

(** [f"{x:,.2f}"] when [comma], [f"{x:.2f}"] otherwise. *)
Definition format_f2 (comma : bool) (x : pyfloat) : string :=
  match x with
  | FNan => "nan"
  | FInf neg => if neg then "-inf" else "inf"
  | FFin neg m e => show_cents comma neg (cents_of m e)
  end.

End PyStr.
Import PyStr.

(** [float(entity.field)]: the attribute is read, then converted. *)
Definition py_float (v : pyval) : result pyfloat :=
  match v with
  | VAbsent => Raise AttributeError
  | VNone => Raise TypeError
  | VStr s => float_of_string s
  end.

(** ** Entities returned by the Alpaca client *)

(** Each record lists the attributes the script reads.  The amounts
    are what the JSON of the answer holds under the name, which may be
    nothing ([VAbsent]); the text attributes ([symbol], [side] and the
    like) are taken to be there. *)

Module Account.
Record t : Type := {
  portfolio_value : pyval;
  cash : pyval;
  equity : pyval;
  last_equity : pyval
}.
End Account.

Module Position.
Record t : Type := {
  symbol : string;
  qty : pyval;
  side : string;
  market_value : pyval;
  cost_basis : pyval;
  unrealized_pl : pyval;
  unrealized_plpc : pyval
}.
End Position.

(** A [pd.Timestamp], to the second. *)
Record Timestamp : Type := {
  year : Z; month : Z; day : Z; hour : Z; minute : Z; second : Z
}.

Module Order.
(** The client turns the [*_at] fields that hold ISO 8601 text into
    timestamps; an order that never filled has [filled_at = None] and
    [filled_avg_price = None]. *)
Record t : Type := {
  symbol : string;
  filled_qty : pyval;
  side : string;
  order_type : string;
  filled_avg_price : pyval;
  status : string;
  filled_at : option Timestamp
}.
End Order.

Module History.
(** [PortfolioHistory]: four parallel columns; a missing number is
    [None].  The timestamps are seconds since the epoch. *)
Record t : Type := {
  timestamp : list Z;
  equity : list (option pyfloat);
  profit_loss : list (option pyfloat);
  profit_loss_pct : list (option pyfloat)
}.
End History.

Module Client.
(** The client object [api]: what the remote answers to each request
    of one script run. *)
Record t : Type := {
  get_account : result Account.t;
  list_positions : result (list Position.t);
  list_orders : string -> Z -> string -> result (list Order.t);
  get_portfolio_history : string -> string -> result History.t
}.
End Client.

(** ** Display rows and widgets *)

Record position_row : Type := {
  pr_Symbol : string;
  pr_Qty : pyfloat;
  pr_Side : string;
  pr_Market_Value : string;
  pr_Cost_Basis : string;
  pr_Unrealized_PL : string;
  pr_Unrealized_PL_pct : string
}.

Record order_row : Type := {
  or_Symbol : string;
  or_Qty : pyfloat;
  or_Side : string;
  or_Type : string;
  or_Avg_Fill_Price : string;
  or_Status : string;
  or_Filled_At : string
}.

(** One row of the history frame. *)
Record history_row : Type := {
  hr_timestamp : Z;
  hr_equity : option pyfloat;
  hr_profit_loss : option pyfloat;
  hr_profit_loss_pct : option pyfloat
}.

(** A frame is its rows; [pd.DataFrame()] has none. *)
Definition frame : Type := list history_row.

Inductive api_call : Type :=
| GetAccount
| ListPositions
| ListOrders (status : string) (limit : Z) (direction : string)
| GetPortfolioHistory (period timeframe : string).

Inductive table : Type :=
| PositionsTable (rows : list position_row)
| OrdersTable (rows : list order_row).

(** What a script run does that can be observed from outside. *)
Inductive event : Type :=
| EvLog (msg : string)
| EvCall (c : api_call)
| EvCacheClear
| EvPageConfig (page_title : string)
| EvTitle (text : string)
| EvButton (label : string)
| EvHeader (text : string)
| EvColumns (n : Z)
| EvMetric (label value : string)
| EvChart (title : string) (series : list (Z * option pyfloat))
| EvDataframe (t : table)
| EvInfo (text : string)
| EvWarning (text : string)
| EvError (text : string).

(** A computation of the script: the events so far and how it ended. *)
Definition M (A : Type) : Type := list event * result A.

Definition ret {A : Type} (a : A) : M A := ([], Ok a).

Definition emit (ev : event) : M unit := ([ev], Ok tt).

Definition lift {A : Type} (r : result A) : M A := ([], r).

Definition bindM {A B : Type} (m : M A) (k : A -> M B) : M B :=
  match m with
  | (tr, Ok a) => let '(tr', r) := k a in (tr ++ tr', r)
  | (tr, Raise e) => (tr, Raise e)
  end.

Notation "'do' x '<-' m ';' k" := (bindM m (fun x => k))
  (at level 10, x pattern, m at level 100, k at level 200).
Notation "m ';;' k" := (bindM m (fun _ => k))
  (at level 100, k at level 200, right associativity).

(** A request sent through the client. *)
Definition request {A : Type} (c : api_call) (answer : result A) : M A :=
  ([EvCall c], answer).

(** [try: body except APIError as e: handler(str(e))] *)
Definition try_except_APIError {A : Type} (body : M A) (handler : string -> M A) : M A :=
  match body with
  | (tr, Raise (APIError msg)) => let '(tr', r) := handler msg in (tr ++ tr', r)
  | _ => body
  end.

(** ** Secrets and the connection *)

(** A value of [secrets.toml]. *)
Inductive toml : Type :=
| TStr (s : string)
| TInt (z : Z)
| TFloat (f : pyfloat)
| TBool (b : bool)
| TOther.

(** [float(v)] for a secret. *)
Definition toml_float (v : toml) : result pyfloat :=
  match v with
  | TStr s => float_of_string s
  | TInt z => match of_Z z with FInf _ => Raise OverflowError | f => Ok f end
  | TFloat f => Ok f
  | TBool b => Ok (of_Z (if b then 1 else 0))
  | TOther => Raise TypeError
  end.

(** [m[k]] *)
Definition subscript {V : Type} (m : gmap string V) (k : string) : result V :=
  match m !! k with
  | Some v => Ok v
  | None => Raise (KeyError k)
  end.

(** [m.get(k, default)] *)
Definition get_default {V : Type} (m : gmap string V) (k : string) (default : V) : V :=
  match m !! k with
  | Some v => v
  | None => default
  end.

Definition paper_url : string := "https://paper-api.alpaca.markets".

Record config : Type := {
  API_KEY : toml;
  API_SECRET : toml;
  BASE_URL : toml;
  TOTAL_PORTFOLIO_CASH : pyfloat;
  api : Client.t
}.

(** What one run of the script is given: the secrets, the constructor
    [tradeapi.REST] with the remote behind it, the clock and whether
    the run was triggered by the button. *)
Record world : Type := {
  secrets : gmap string (gmap string toml);
  REST : toml -> toml -> toml -> result Client.t;
  now : Z;
  refresh_clicked : bool
}.

(** The body of the [try] block at the top of the script. *)
Definition read_secrets (w : world) : result config :=
  let! alpaca := subscript (secrets w) "alpaca" in
  let! key := subscript alpaca "api_key" in
  let! alpaca := subscript (secrets w) "alpaca" in
  let! secret := subscript alpaca "secret_key" in
  let! alpaca := subscript (secrets w) "alpaca" in
  let url := get_default alpaca "base_url" (TStr paper_url) in
  let! account := subscript (secrets w) "account" in
  let! total := subscript account "total_portfolio_cash" in
  let! total := toml_float total in
  let! a := REST w key secret url in
  Ok {| API_KEY := key; API_SECRET := secret; BASE_URL := url;
        TOTAL_PORTFOLIO_CASH := total; api := a |}.

(** How a script run ends: it reaches the end, [st.stop()] ends it, or
    an exception nobody caught ends it. *)
Inductive outcome (A : Type) : Type :=
| Finished (a : A)
| Stopped
| Crashed (e : exn).
Arguments Finished {A} a.
Arguments Stopped {A}.
Arguments Crashed {A} e.

Definition fatal_message : string :=
  "FATAL: Could not connect to Alpaca API. Have you set your secrets in the Streamlit dashboard?".

(** The [try ... except Exception] at the top of the script. *)
Definition startup (w : world) : list event * outcome config :=
  match read_secrets w with
  | Ok cfg => ([EvLog "✅ Alpaca API connection successful."], Finished cfg)
  | Raise _ => ([EvError fatal_message], Stopped)
  end.

(** ** The cached helpers *)

Definition account_data : Type := option Account.t * list Position.t * list Order.t.

Definition get_account_data (a : Client.t) : M account_data :=
  try_except_APIError
    (do account <- request GetAccount (Client.get_account a);
     do positions <- request ListPositions (Client.list_positions a);
     do orders <- request (ListOrders "closed" 100 "desc") (Client.list_orders a "closed" 100 "desc");
     ret (Some account, positions, orders))
    (fun e =>
       emit (EvError ("Error fetching data from Alpaca: " +:+ e)) ;;
       ret (None, [], [])).

(** [pd.DataFrame({...})] on four columns: they must have one length. *)
Fixpoint zip_columns (ts : list Z) (eq pl plp : list (option pyfloat)) : result frame :=
  match ts, eq, pl, plp with
  | [], [], [], [] => Ok []
  | t :: ts, e :: eq, p :: pl, q :: plp =>
      let! rows := zip_columns ts eq pl plp in
      Ok ({| hr_timestamp := t; hr_equity := e; hr_profit_loss := p;
             hr_profit_loss_pct := q |} :: rows)
  | _, _, _, _ => Raise ValueError
  end.

Definition DataFrame (h : History.t) : result frame :=
  zip_columns (History.timestamp h) (History.equity h)
              (History.profit_loss h) (History.profit_loss_pct h).

(** The seconds a [pd.Timestamp] can hold: it counts nanoseconds in
    64 bits, from 1677-09-21 to 2262-04-11. *)
Definition timestamp_min : Z := -9223372036.
Definition timestamp_max : Z := 9223372036.

Definition in_timestamp_range (s : Z) : bool :=
  (timestamp_min <=? s) && (s <=? timestamp_max).

(** [df['timestamp'] = pd.to_datetime(df['timestamp'], unit='s')]: the
    seconds become timestamps, which the frame keeps here as seconds; a
    number of seconds outside the range raises [OutOfBoundsDatetime], a
    [ValueError]. *)
Fixpoint to_datetime (df : frame) : result frame :=
  match df with
  | [] => Ok []
  | r :: rows =>
      if in_timestamp_range (hr_timestamp r) then
        let! rows := to_datetime rows in
        Ok (r :: rows)
      else Raise ValueError
  end.

Definition get_portfolio_history (a : Client.t) : M frame :=
  try_except_APIError
    (do history <- request (GetPortfolioHistory "1M" "1D") (Client.get_portfolio_history a "1M" "1D");
     do df <- lift (DataFrame history);
     do df <- lift (to_datetime df);
     ret df)
    (fun e =>
       emit (EvError ("Error fetching portfolio history: " +:+ e)) ;;
       ret []).

(** ** [st.cache_data(ttl=...)] *)

(** A cached return value, when it was stored, and the elements the
    function drew, which a cache hit draws again. *)
Record entry (A : Type) : Type := {
  stored_at : Z;
  value : A;
  replay : list event
}.
Arguments stored_at {A} _.
Arguments value {A} _.
Arguments replay {A} _.

Definition is_element (ev : event) : bool :=
  match ev with
  | EvLog _ | EvCall _ | EvCacheClear => false
  | _ => true
  end.

(** The cache keeps a return value as [pickle.dumps] writes it, and
    answers a hit with [pickle.loads] of what it kept: a copy, when the
    value can be read back.  An [Entity] of the Alpaca client cannot.
    [loads] makes the object without running [__init__] and asks it for
    [__setstate__]; [Entity.__getattr__] answers a name the class does
    not define by looking into [self._raw], which the new object does
    not have yet, so that reading [_raw] calls [__getattr__] again, and
    so on until the interpreter raises [RecursionError].  Writing an
    entity works: there the object has its [_raw]. *)
Definition loads_entity {A : Type} (x : A) : result A := Raise RecursionError.

Definition loads_option {A : Type} (loads : A -> result A) (x : option A)
  : result (option A) :=
  match x with
  | None => Ok None
  | Some a => let! a := loads a in Ok (Some a)
  end.

Fixpoint loads_list {A : Type} (loads : A -> result A) (l : list A) : result (list A) :=
  match l with
  | [] => Ok []
  | x :: l =>
      let! x := loads x in
      let! l := loads_list loads l in
      Ok (x :: l)
  end.

(** The tuple [(account, positions, orders)] is read back item by
    item. *)
Definition loads_account_data (data : account_data) : result account_data :=
  let '(account, positions, orders) := data in
  let! account := loads_option loads_entity account in
  let! positions := loads_list loads_entity positions in
  let! orders := loads_list loads_entity orders in
  Ok (account, positions, orders).

(** A frame of numbers is read back as it was written. *)
Definition loads_frame (df : frame) : result frame := Ok df.

(** The decorator is Streamlit's, and behaves as its documentation
    says.  A call at time [t], in seconds, of a function decorated with
    [ttl]: an entry younger than [ttl] answers it, with the stored value
    read back by [loads] and the stored elements drawn again, or with
    the exception of [loads], which leaves the entry where it is;
    otherwise the function runs, and what it returns is stored.  An
    exception of the function stores nothing.  The two helpers take no
    argument, so each has one slot. *)
Definition cache_data {A : Type} (loads : A -> result A) (ttl t : Z)
           (slot : option (entry A)) (f : M A)
  : M A * option (entry A) :=
  let run :=
    match f with
    | (tr, Ok a) =>
        ((tr, Ok a), Some {| stored_at := t; value := a; replay := filter is_element tr |})
    | (tr, Raise e) => ((tr, Raise e), None)
    end in
  match slot with
  | Some en =>
      if t <? stored_at en + ttl then
        match loads (value en) with
        | Ok a => ((replay en, Ok a), slot)
        | Raise e => (([], Raise e), slot)
        end
      else run
  | None => run
  end.

(** The two caches of the process. *)
Record cache : Type := {
  account_slot : option (entry account_data);
  history_slot : option (entry frame)
}.

(** [st.cache_data.clear()] *)
Definition cache_clear (c : cache) : cache :=
  {| account_slot := None; history_slot := None |}.

Definition cached_get_account_data (a : Client.t) (t : Z) (c : cache) : M account_data * cache :=
  let '(m, slot) := cache_data loads_account_data 300 t (account_slot c) (get_account_data a) in
  (m, {| account_slot := slot; history_slot := history_slot c |}).

Definition cached_get_portfolio_history (a : Client.t) (t : Z) (c : cache) : M frame * cache :=
  let '(m, slot) := cache_data loads_frame 3600 t (history_slot c) (get_portfolio_history a) in
  (m, {| account_slot := account_slot c; history_slot := slot |}).

(** ** The page *)

(** [f"${x:,.2f}"] *)
Definition dollars (x : pyfloat) : string := "$" +:+ format_f2 true x.

(** The four metrics under "Key Performance Indicators". *)
Definition portfolio_value_metric (account : Account.t) : result string :=
  let! v := py_float (Account.portfolio_value account) in
  Ok (dollars v).

Definition cash_metric (account : Account.t) : result string :=
  let! v := py_float (Account.cash account) in
  Ok (dollars v).

Definition todays_pl_metric (account : Account.t) : result string :=
  let! e := py_float (Account.equity account) in
  let! l := py_float (Account.last_equity account) in
  Ok (dollars (fsub e l)).

Definition total_pl_metric (account : Account.t) (total_portfolio_cash : pyfloat) : result string :=
  let! e := py_float (Account.equity account) in
  Ok (dollars (fsub e total_portfolio_cash)).

Definition render_kpis (account : Account.t) (total_portfolio_cash : pyfloat) : M unit :=
  emit (EvHeader "Key Performance Indicators") ;;
  emit (EvColumns 4) ;;
  do v1 <- lift (portfolio_value_metric account);
  emit (EvMetric "Portfolio Value" v1) ;;
  do v2 <- lift (cash_metric account);
  emit (EvMetric "Cash Balance" v2) ;;
  do v3 <- lift (todays_pl_metric account);
  emit (EvMetric "Today's P/L" v3) ;;
  do v4 <- lift (total_pl_metric account total_portfolio_cash);
  emit (EvMetric "Total P/L" v4).

Definition render_history (history_df : frame) : M unit :=
  emit (EvHeader "Portfolio Value Over Time (30 Days)") ;;
  match history_df with
  | _ :: _ =>
      emit (EvChart "Portfolio Equity Over Time"
                    (map (fun r => (hr_timestamp r, hr_equity r)) history_df))
  | [] => emit (EvWarning "Could not load portfolio history chart.")
  end.

(** A [for] loop that appends one built item per element and stops at
    the first exception. *)
Fixpoint for_each {A B : Type} (f : A -> result B) (l : list A) : result (list B) :=
  match l with
  | [] => Ok []
  | x :: r =>
      let! y := f x in
      let! ys := for_each f r in
      Ok (y :: ys)
  end.

(** The dictionary appended for one position. *)
Definition position_row_of (p : Position.t) : result position_row :=
  let! q := py_float (Position.qty p) in
  let side := title (Position.side p) in
  let! mv := py_float (Position.market_value p) in
  let! cb := py_float (Position.cost_basis p) in
  let! pl := py_float (Position.unrealized_pl p) in
  let! plpc := py_float (Position.unrealized_plpc p) in
  Ok {| pr_Symbol := Position.symbol p;
        pr_Qty := q;
        pr_Side := side;
        pr_Market_Value := dollars mv;
        pr_Cost_Basis := dollars cb;
        pr_Unrealized_PL := dollars pl;
        pr_Unrealized_PL_pct := format_f2 false (fmul plpc (of_Z 100)) +:+ "%" |}.

Definition positions_data (positions : list Position.t) : result (list position_row) :=
  for_each position_row_of positions.

Definition render_positions (positions : list Position.t) : M unit :=
  emit (EvHeader "Current Open Positions") ;;
  match positions with
  | _ :: _ =>
      do rows <- lift (positions_data positions);
      emit (EvDataframe (PositionsTable rows))
  | [] => emit (EvInfo "No open positions.")
  end.

(** [str(n).zfill(w)] for a natural number. *)
Fixpoint zeros (n : nat) : string :=
  match n with
  | O => EmptyString
  | S k => String "0" (zeros k)
  end.

Definition zfill (w : nat) (z : Z) : string :=
  let d := digits z in zeros (w - String.length d) +:+ d.

(** [t.strftime('%Y-%m-%d %H:%M:%S')], for a timestamp that a
    [pd.Timestamp] can hold: its year, between 1677 and 2262, has four
    digits. *)
Definition strftime (t : Timestamp) : string :=
  zfill 4 (year t) +:+ "-" +:+ zfill 2 (month t) +:+ "-" +:+ zfill 2 (day t) +:+ " " +:+
  zfill 2 (hour t) +:+ ":" +:+ zfill 2 (minute t) +:+ ":" +:+ zfill 2 (second t).

(** [pd.to_datetime(x).strftime(...)]: [pd.to_datetime(None)] is
    [None], which has no [strftime].  (Later versions of pandas return
    [NaT] instead, whose [strftime] raises [ValueError].) *)
Definition filled_at_text (x : option Timestamp) : result string :=
  match x with
  | Some t => Ok (strftime t)
  | None => Raise AttributeError
  end.

(** The dictionary appended for one order. *)
Definition order_row_of (o : Order.t) : result order_row :=
  let! q := py_float (Order.filled_qty o) in
  let side := title (Order.side o) in
  let type := title (Order.order_type o) in
  let! price := py_float (Order.filled_avg_price o) in
  let status := title (Order.status o) in
  let! at_ := filled_at_text (Order.filled_at o) in
  Ok {| or_Symbol := Order.symbol o;
        or_Qty := q;
        or_Side := side;
        or_Type := type;
        or_Avg_Fill_Price := dollars price;
        or_Status := status;
        or_Filled_At := at_ |}.

Definition orders_data (orders : list Order.t) : result (list order_row) :=
  for_each order_row_of orders.

Definition render_orders (orders : list Order.t) : M unit :=
  emit (EvHeader "Recent Closed Orders (Last 100)") ;;
  match orders with
  | _ :: _ =>
      do rows <- lift (orders_data orders);
      emit (EvDataframe (OrdersTable rows))
  | [] => emit (EvInfo "No recent closed orders found.")
  end.

Definition no_account_message : string :=
  "Could not connect to Alpaca to fetch account data.".

(** The [if account: ... else: ...] at the end of the script. *)
Definition dashboard (data : account_data) (history_df : frame)
           (total_portfolio_cash : pyfloat) : M unit :=
  let '(account, positions, orders) := data in
  match account with
  | Some acct =>
      render_kpis acct total_portfolio_cash ;;
      render_history history_df ;;
      render_positions positions ;;
      render_orders orders
  | None => emit (EvError no_account_message)
  end.

(** The script from the page set-up to the two cached fetches, with
    the refresh button between them. *)
Definition fetches (cfg : config) (w : world) (c : cache) : M (account_data * frame) * cache :=
  let head :=
    [EvPageConfig "Alpaca Trading Performance";
     EvTitle "📈 Alpaca Trading Performance Overview";
     EvButton "Refresh Data"] in
  let '(head, c) :=
    if refresh_clicked w then (head ++ [EvCacheClear], cache_clear c) else (head, c) in
  let '(m1, c) := cached_get_account_data (api cfg) (now w) c in
  match m1 with
  | (tr1, Raise e) => ((head ++ tr1, Raise e), c)
  | (tr1, Ok data) =>
      let '(m2, c) := cached_get_portfolio_history (api cfg) (now w) c in
      match m2 with
      | (tr2, Raise e) => ((head ++ tr1 ++ tr2, Raise e), c)
      | (tr2, Ok history_df) => ((head ++ tr1 ++ tr2, Ok (data, history_df)), c)
      end
  end.

(** The script below the connection. *)
Definition page (cfg : config) (w : world) (c : cache) : M unit * cache :=
  let '(m, c') := fetches cfg w c in
  (do fetched <- m; dashboard (fst fetched) (snd fetched) (TOTAL_PORTFOLIO_CASH cfg), c').

(** One run of the whole script. *)
Definition script (w : world) (c : cache) : list event * outcome unit * cache :=
  match startup w with
  | (tr0, Finished cfg) =>
      let '((tr, r), c') := page cfg w c in
      (tr0 ++ tr,
       match r with Ok _ => Finished tt | Raise e => Crashed e end,
       c')
  | (tr0, Stopped) => (tr0, Stopped, c)
  | (tr0, Crashed e) => (tr0, Crashed e, c)
  end.

(** ** Observations on runs *)

(** The events of the region below the fetches: headers, metrics, the
    chart, the tables and their empty-state messages. *)
Definition is_section (ev : event) : bool :=
  match ev with
  | EvHeader _ | EvColumns _ | EvMetric _ _ | EvChart _ _ | EvDataframe _
  | EvInfo _ | EvWarning _ => true
  | _ => false
  end.

Definition is_dataframe (ev : event) : bool :=
  match ev with EvDataframe _ => true | _ => false end.


Definition is_call (ev : event) : bool :=
  match ev with EvCall _ => true | _ => false end.

Definition is_error (ev : event) : bool :=
  match ev with EvError _ => true | _ => false end.

(** The entries the helpers store replay error messages only. *)
Definition slot_ok {A : Type} (slot : option (entry A)) : bool :=
  match slot with
  | Some en => forallb is_error (replay en)
  | None => true
  end.

Definition cache_ok (c : cache) : bool :=
  slot_ok (account_slot c) && slot_ok (history_slot c).

(** [st.secrets[section][key]], when both exist. *)
Definition secret (w : world) (section key : string) : option toml :=
  match secrets w !! section with
  | Some t => t !! key
  | None => None
  end.




(** A slot that cannot answer a call at time [t]: empty, or holding an
    entry of age [ttl] or more. *)
Definition stale {A : Type} (ttl t : Z) (slot : option (entry A)) : Prop :=
  match slot with
  | Some en => stored_at en + ttl <= t
  | None => True
  end.

(** The text [s] is a decimal literal, of sign [neg], whose magnitude
    is [c / scale]. *)
Definition reads_decimal (s : string) (neg : bool) (c scale : Z) : Prop :=
  exists body D X,
    read_sign (strip s) = (neg, body)
    /\ read_decimal body = Some (D, X)
    /\ D * 10 ^ Z.max 0 X * scale = c * 10 ^ Z.max 0 (- X).

(** An entity field that holds an amount of [c] hundredths. *)
Definition amount (v : pyval) (c : Z) : Prop :=
  match v with
  | VStr s => reads_decimal s false c 100
  | VNone | VAbsent => False
  end.

(** An entity field that holds a ratio of [k] ten-thousandths, of
    sign [neg]. *)
Definition ratio (v : pyval) (neg : bool) (k : Z) : Prop :=
  match v with
  | VStr s => reads_decimal s neg k 10000
  | VNone | VAbsent => False
  end.

(** A secret that holds an amount of [c] hundredths, as text or as an
    integer. *)
Definition baseline (v : toml) (c : Z) : Prop :=
  match v with
  | TStr s => reads_decimal s false c 100
  | TInt z => c = 100 * z
  | _ => False
  end.

(** ** Sample data *)

Definition sample_account : Account.t :=
  {| Account.portfolio_value := VStr "105320.50";
     Account.cash := VStr "25000.00";
     Account.equity := VStr "105320.50";
     Account.last_equity := VStr "104800.00" |}.

Definition sample_position : Position.t :=
  {| Position.symbol := "AAPL";
     Position.qty := VStr "10";
     Position.side := "long";
     Position.market_value := VStr "1753.20";
     Position.cost_basis := VStr "1664.64";
     Position.unrealized_pl := VStr "88.56";
     Position.unrealized_plpc := VStr "0.0532" |}.

Definition filled_order (sym : string) (d h : Z) : Order.t :=
  {| Order.symbol := sym;
     Order.filled_qty := VStr "10";
     Order.side := "buy";
     Order.order_type := "market";
     Order.filled_avg_price := VStr "166.464";
     Order.status := "filled";
     Order.filled_at :=
       Some {| year := 2024; month := 1; day := d; hour := h; minute := 30; second := 0 |} |}.

(** A closed order that never filled. *)
Definition canceled_order : Order.t :=
  {| Order.symbol := "MSFT";
     Order.filled_qty := VStr "0";
     Order.side := "buy";
     Order.order_type := "limit";
     Order.filled_avg_price := VNone;
     Order.status := "canceled";
     Order.filled_at := None |}.

Definition sample_history : History.t :=
  {| History.timestamp := [1704240000; 1704326400];
     History.equity := [Some (of_Z 104800); Some (of_Z 105320)];
     History.profit_loss := [Some (of_Z 0); Some (of_Z 520)];
     History.profit_loss_pct := [Some (of_Z 0); None] |}.

Definition healthy_client : Client.t :=
  {| Client.get_account := Ok sample_account;
     Client.list_positions := Ok [sample_position];
     Client.list_orders := fun _ _ _ => Ok [filled_order "AAPL" 3 15];
     Client.get_portfolio_history := fun _ _ => Ok sample_history |}.

(** A remote that answers every request with the exception [e]. *)
Definition failing_client (e : exn) : Client.t :=
  {| Client.get_account := Raise e;
     Client.list_positions := Raise e;
     Client.list_orders := fun _ _ _ => Raise e;
     Client.get_portfolio_history := fun _ _ => Raise e |}.

Definition sample_secrets : gmap string (gmap string toml) :=
  {[ "alpaca" := {[ "api_key" := TStr "PK0000"; "secret_key" := TStr "s3cr3t" ]};
     "account" := {[ "total_portfolio_cash" := TStr "100000.00" ]} ]}.

Definition sample_world (a : Client.t) (t : Z) (clicked : bool) : world :=
  {| secrets := sample_secrets;
     REST := fun _ _ _ => Ok a;
     now := t;
     refresh_clicked := clicked |}.

Definition sample_config (a : Client.t) : config :=
  {| API_KEY := TStr "PK0000";
     API_SECRET := TStr "s3cr3t";
     BASE_URL := TStr paper_url;
     TOTAL_PORTFOLIO_CASH := of_Z 100000;
     api := a |}.

Definition empty_cache : cache := {| account_slot := None; history_slot := None |}.

(** The cache after the account fetch of a first run, at time 0, on
    [healthy_client]. *)
Definition cache_with_account : cache :=
  {| account_slot :=
       Some {| stored_at := 0;
               value := (Some sample_account, [sample_position], [filled_order "AAPL" 3 15]);
               replay := [] |};
     history_slot := None |}.

(** A remote whose closed orders include one that never filled. *)
Definition client_with_canceled_order : Client.t :=
  {| Client.get_account := Ok sample_account;
     Client.list_positions := Ok [];
     Client.list_orders := fun _ _ _ => Ok [filled_order "AAPL" 3 15; canceled_order];
     Client.get_portfolio_history := fun _ _ => Ok sample_history |}.

(** Secrets without the [account] table, and secrets whose baseline is
    not a number. *)
Definition secrets_without_account : gmap string (gmap string toml) :=
  {[ "alpaca" := {[ "api_key" := TStr "PK0000"; "secret_key" := TStr "s3cr3t" ]} ]}.

Definition secrets_with_bad_baseline : gmap string (gmap string toml) :=
  {[ "alpaca" := {[ "api_key" := TStr "PK0000"; "secret_key" := TStr "s3cr3t";
                    "base_url" := TStr "https://api.alpaca.markets" ]};
     "account" := {[ "total_portfolio_cash" := TStr "one hundred thousand" ]} ]}.

Definition world_with (s : gmap string (gmap string toml)) : world :=
  {| secrets := s;
     REST := fun _ _ _ => Ok healthy_client;
     now := 0;
     refresh_clicked := false |}.



(** A remote whose history has columns of different lengths. *)
Definition client_with_ragged_history : Client.t :=
  {| Client.get_account := Ok sample_account;
     Client.list_positions := Ok [];
     Client.list_orders := fun _ _ _ => Ok [];
     Client.get_portfolio_history := fun _ _ =>
       Ok {| History.timestamp := [1704240000; 1704326400];
             History.equity := [Some (of_Z 104800)];
             History.profit_loss := [];
             History.profit_loss_pct := [] |} |}.

(** Amounts beyond the integers a float can tell apart. *)
Definition huge_account : Account.t :=
  {| Account.portfolio_value := VStr "9007199254740993.00";
     Account.cash := VStr "0.00";
     Account.equity := VStr "9007199254740993.00";
     Account.last_equity := VStr "9007199254740992.00" |}.

(** An equity beyond the integers a float can tell apart, against the
    sample baseline of 100000.00. *)
Definition huge_equity_account : Account.t :=
  {| Account.portfolio_value := VStr "9007199254840993.00";
     Account.cash := VStr "0.00";
     Account.equity := VStr "9007199254840993.00";
     Account.last_equity := VStr "9007199254840993.00" |}.

(** ** Further observations *)

(** An entity field that holds an amount of [c] hundredths, of sign
    [neg]. *)
Definition signed_amount (v : pyval) (neg : bool) (c : Z) : Prop :=
  match v with
  | VStr s => reads_decimal s neg c 100
  | VNone | VAbsent => False
  end.

(** A slot that answers a call at time [t]. *)
Definition fresh {A : Type} (ttl t : Z) (slot : option (entry A)) : Prop :=
  match slot with
  | Some en => t < stored_at en + ttl
  | None => False
  end.

(** The requests of a run, in the order sent. *)
Fixpoint calls (tr : list event) : list api_call :=
  match tr with
  | [] => []
  | EvCall c :: r => c :: calls r
  | _ :: r => calls r
  end.

(** The four requests the script knows, in the order of the script. *)
Definition account_requests : list api_call :=
  [GetAccount; ListPositions; ListOrders "closed" 100 "desc"].

Definition history_request : api_call := GetPortfolioHistory "1M" "1D".

(** The URL handed to [tradeapi.REST]. *)
Definition configured_url (w : world) : toml :=
  match secret w "alpaca" "base_url" with
  | Some u => u
  | None => TStr paper_url
  end.

(** A position whose amounts are all in whole cents. *)
Definition losing_position : Position.t :=
  {| Position.symbol := "TSLA";
     Position.qty := VStr "3";
     Position.side := "long";
     Position.market_value := VStr "1234567.8";
     Position.cost_basis := VStr "1234600";
     Position.unrealized_pl := VStr "-32.20";
     Position.unrealized_plpc := VStr "-0.0001" |}.

(** The four columns of a history have one length. *)
Definition same_lengths (h : History.t) : Prop :=
  length (History.equity h) = length (History.timestamp h)
  /\ length (History.profit_loss h) = length (History.timestamp h)
  /\ length (History.profit_loss_pct h) = length (History.timestamp h).



(** A remote whose history has no point yet. *)
Definition client_with_empty_history : Client.t :=
  {| Client.get_account := Ok sample_account;
     Client.list_positions := Ok [];
     Client.list_orders := fun _ _ _ => Ok [];
     Client.get_portfolio_history := fun _ _ =>
       Ok {| History.timestamp := []; History.equity := [];
             History.profit_loss := []; History.profit_loss_pct := [] |} |}.

(** The cache a first run on an empty cache leaves behind when every
    request is answered by [APIError "forbidden."]. *)
Definition cache_after_failure : cache :=
  {| account_slot :=
       Some {| stored_at := 0; value := (None, [], []);
               replay := [EvError "Error fetching data from Alpaca: forbidden."] |};
     history_slot :=
       Some {| stored_at := 0; value := [];
               replay := [EvError "Error fetching portfolio history: forbidden."] |} |}.

(** A remote whose constructor fails. *)
Definition world_without_remote : world :=
  {| secrets := sample_secrets;
     REST := fun _ _ _ => Raise ValueError;
     now := 0;
     refresh_clicked := false |}.

(** The cache ten minutes after a first run on [healthy_client]. *)
Definition cache_after_success : cache :=
  {| account_slot :=
       Some {| stored_at := 0;
               value := (Some sample_account, [sample_position], [filled_order "AAPL" 3 15]);
               replay := [] |};
     history_slot :=
       Some {| stored_at := 0; value := []; replay := [] |} |}.

(** The frame of [sample_history]. *)
Definition sample_frame : frame :=
  [ {| hr_timestamp := 1704240000; hr_equity := Some (of_Z 104800);
       hr_profit_loss := Some (of_Z 0); hr_profit_loss_pct := Some (of_Z 0) |};
    {| hr_timestamp := 1704326400; hr_equity := Some (of_Z 105320);
       hr_profit_loss := Some (of_Z 520); hr_profit_loss_pct := None |} ].

(** The cache a first run at time 0 on an empty cache leaves behind
    when every request is answered as by [healthy_client]. *)
Definition cache_after_first_run : cache :=
  {| account_slot :=
       Some {| stored_at := 0;
               value := (Some sample_account, [sample_position], [filled_order "AAPL" 3 15]);
               replay := [] |};
     history_slot :=
       Some {| stored_at := 0; value := sample_frame; replay := [] |} |}.










(** * Properties *)

(** ** The model of [float] and of the formats on examples *)

Example float_tenth : float_of_string "0.1" = Ok (FFin false 7205759403792794 (-56)).
Proof. vm_compute. reflexivity. Qed.

Example float_forms :
  map float_of_string [" 1_0.5e1 "; "-.5"; "5."; "+Infinity"; "1__0"; "e5"; ""; "1e400"; "-0.0"]
  = [Ok (FFin false 7388718138654720 (-46)); Ok (FFin true 4503599627370496 (-53));
     Ok (FFin false 5629499534213120 (-50)); Ok (FInf false); Raise ValueError;
     Raise ValueError; Raise ValueError; Ok (FInf false); Ok (FFin true 0 (-1074))].
Proof. vm_compute. reflexivity. Qed.

Example format_forms :
  (let! x := float_of_string "1234567.125" in Ok (format_f2 true x)) = Ok "1,234,567.12"
  /\ (let! x := float_of_string "-0.001" in Ok (format_f2 true x)) = Ok "-0.00"
  /\ (let! x := float_of_string "0.375" in Ok (format_f2 false x)) = Ok "0.38"
  /\ (let! x := float_of_string "999.995" in Ok (format_f2 true x)) = Ok "1,000.00"
  /\ title "stop_limit" = "Stop_Limit" /\ title "pARTIALLY filled" = "Partially Filled".
Proof. vm_compute. repeat split. Qed.

(** The operations agree with [SpecFloat]'s on the operands of the
    examples below. *)
Example agrees_with_SpecFloat :
  let f s := match float_of_string s with Ok x => x | Raise _ => FNan end in
  to_spec (round64 false 1 10)
  = SpecFloat.SFdiv 53 1024 (to_spec (of_Z 1)) (to_spec (of_Z 10))
  /\ to_spec (f "0.0532")
     = SpecFloat.SFdiv 53 1024 (to_spec (of_Z 532)) (to_spec (of_Z 10000))
  /\ map (fun xy => to_spec (fsub (f (fst xy)) (f (snd xy))))
         [("0.3", "0.1"); ("105320.50", "104800.00"); ("9007199254840993.00", "100000.00");
          ("1e308", "-1e308"); ("5e-324", "1e-323"); ("-0.0", "0"); ("inf", "inf")]
     = map (fun xy => SpecFloat.SFsub 53 1024 (to_spec (f (fst xy))) (to_spec (f (snd xy))))
         [("0.3", "0.1"); ("105320.50", "104800.00"); ("9007199254840993.00", "100000.00");
          ("1e308", "-1e308"); ("5e-324", "1e-323"); ("-0.0", "0"); ("inf", "inf")]
  /\ map (fun xy => to_spec (fmul (f (fst xy)) (f (snd xy))))
         [("0.0532", "100"); ("-0.1", "0.3"); ("1e200", "1e200"); ("1e-200", "1e-200");
          ("inf", "0"); ("-0.0", "5")]
     = map (fun xy => SpecFloat.SFmul 53 1024 (to_spec (f (fst xy))) (to_spec (f (snd xy))))
         [("0.0532", "100"); ("-0.1", "0.3"); ("1e200", "1e200"); ("1e-200", "1e-200");
          ("inf", "0"); ("-0.0", "5")].
Proof. vm_compute. repeat split. Qed.

Example sample_run :
  script (sample_world healthy_client 0 false) empty_cache
  = ([EvLog "✅ Alpaca API connection successful.";
      EvPageConfig "Alpaca Trading Performance";
      EvTitle "📈 Alpaca Trading Performance Overview";
      EvButton "Refresh Data";
      EvCall GetAccount; EvCall ListPositions; EvCall (ListOrders "closed" 100 "desc");
      EvCall (GetPortfolioHistory "1M" "1D");
      EvHeader "Key Performance Indicators"; EvColumns 4;
      EvMetric "Portfolio Value" "$105,320.50"; EvMetric "Cash Balance" "$25,000.00";
      EvMetric "Today's P/L" "$520.50"; EvMetric "Total P/L" "$5,320.50";
      EvHeader "Portfolio Value Over Time (30 Days)";
      EvChart "Portfolio Equity Over Time"
              [(1704240000, Some (of_Z 104800)); (1704326400, Some (of_Z 105320))];
      EvHeader "Current Open Positions";
      EvDataframe (PositionsTable
        [{| pr_Symbol := "AAPL"; pr_Qty := of_Z 10; pr_Side := "Long";
            pr_Market_Value := "$1,753.20"; pr_Cost_Basis := "$1,664.64";
            pr_Unrealized_PL := "$88.56"; pr_Unrealized_PL_pct := "5.32%" |}]);
      EvHeader "Recent Closed Orders (Last 100)";
      EvDataframe (OrdersTable
        [{| or_Symbol := "AAPL"; or_Qty := of_Z 10; or_Side := "Buy"; or_Type := "Market";
            or_Avg_Fill_Price := "$166.46"; or_Status := "Filled";
            or_Filled_At := "2024-01-03 15:30:00" |}])],
     Finished tt,
     {| account_slot :=
          Some {| stored_at := 0;
                  value := (Some sample_account, [sample_position], [filled_order "AAPL" 3 15]);
                  replay := [] |};
        history_slot :=
          Some {| stored_at := 0;
                  value := [ {| hr_timestamp := 1704240000; hr_equity := Some (of_Z 104800);
                                hr_profit_loss := Some (of_Z 0);
                                hr_profit_loss_pct := Some (of_Z 0) |};
                             {| hr_timestamp := 1704326400; hr_equity := Some (of_Z 105320);
                                hr_profit_loss := Some (of_Z 520);
                                hr_profit_loss_pct := None |} ];
                  replay := [] |} |}).
Proof. vm_compute. reflexivity. Qed.

(** ** Rounding to the nearest integer *)

Lemma rne_bound (p d : Z) : 0 < d -> 2 * Z.abs (rne p d * d - p) <= d.
Proof.
  intros Hd. unfold rne.
  pose proof (Z.div_mod p d ltac:(lia)) as Hp.
  pose proof (Z.mod_pos_bound p d Hd) as Hr.
  destruct (Z.compare_spec (2 * (p mod d)) d) as [E | E | E];
    [destruct (Z.even (p / d)) |..]; nia.
Qed.

Lemma rne_unique (p d c : Z) : 0 < d -> 2 * Z.abs (c * d - p) < d -> rne p d = c.
Proof.
  intros Hd Hc. unfold rne.
  pose proof (Z.div_mod p d ltac:(lia)) as Hp.
  pose proof (Z.mod_pos_bound p d Hd) as Hr.
  assert (Hq : c = p / d \/ c = p / d + 1) by nia.
  destruct (Z.compare_spec (2 * (p mod d)) d) as [E | E | E];
    [destruct (Z.even (p / d)) |..]; nia.
Qed.

Lemma rne_nonneg (p d : Z) : 0 <= p -> 0 < d -> 0 <= rne p d.
Proof.
  intros Hp Hd. unfold rne.
  pose proof (Z.div_pos p d Hp Hd).
  destruct (2 * (p mod d) ?= d); [destruct (Z.even (p / d)) |..]; lia.
Qed.

Lemma rne_scale (p d k : Z) : 0 < d -> 0 < k -> rne (p * k) (d * k) = rne p d.
Proof.
  intros Hd Hk. unfold rne.
  rewrite Z.div_mul_cancel_r by lia.
  rewrite Z.mul_mod_distr_r by lia.
  replace (2 * (p mod d * k)) with (2 * (p mod d) * k) by ring.
  destruct (Z.compare_spec (2 * (p mod d)) d) as [E | E | E];
    destruct (Z.compare_spec (2 * (p mod d) * k) (d * k)) as [E' | E' | E'];
    try reflexivity; nia.
Qed.

(** The rounding depends on the ratio only. *)
Lemma rne_ratio (p d p' d' : Z) :
  0 < d -> 0 < d' -> p * d' = p' * d -> rne p d = rne p' d'.
Proof.
  intros Hd Hd' H.
  rewrite <- (rne_scale p d d' Hd Hd'), <- (rne_scale p' d' d Hd' Hd).
  rewrite H. f_equal. ring.
Qed.

(** ** The binary exponent of a ratio *)

Lemma pow2_pos (k : Z) : 0 <= k -> 0 < 2 ^ k.
Proof. intros H. apply Z.pow_pos_nonneg; lia. Qed.

Lemma pow2_split (a b : Z) : 0 <= a -> 0 <= b -> 2 ^ (a + b) = 2 ^ a * 2 ^ b.
Proof. intros Ha Hb. apply Z.pow_add_r; assumption. Qed.

Lemma mul_le_cancel (x y k : Z) : 0 < k -> x * k <= y * k -> x <= y.
Proof. intros Hk H. nia. Qed.

(** [pow2_le p d l] compares [d * 2^l] with [p] after both are scaled
    by any power of two that makes the exponents natural. *)
Lemma pow2_le_shift (p d l N : Z) :
  0 <= N -> 0 <= N + l ->
  pow2_le p d l = true <-> d * 2 ^ (N + l) <= p * 2 ^ N.
Proof.
  intros HN HNl. unfold pow2_le. rewrite Z.leb_le.
  destruct (Z.le_ge_cases 0 l) as [Hl | Hl].
  - rewrite (Z.max_r 0 l), (Z.max_l 0 (- l)) by lia.
    rewrite Z.pow_0_r, Z.mul_1_r, (pow2_split N l) by lia.
    pose proof (pow2_pos N HN) as HpN. split; intros H.
    + nia.
    + apply (mul_le_cancel _ _ (2 ^ N) HpN). nia.
  - rewrite (Z.max_l 0 l), (Z.max_r 0 (- l)) by lia.
    rewrite Z.pow_0_r, Z.mul_1_r.
    replace (2 ^ N) with (2 ^ (N + l) * 2 ^ (- l))
      by (rewrite <- pow2_split by lia; f_equal; ring).
    pose proof (pow2_pos (N + l) HNl) as HpN. split; intros H.
    + nia.
    + apply (mul_le_cancel _ _ (2 ^ (N + l)) HpN). nia.
Qed.

Lemma pow2_le_antitone (p d l j : Z) :
  0 <= d -> j <= l -> pow2_le p d l = true -> pow2_le p d j = true.
Proof.
  intros Hd Hj H.
  set (N := Z.abs l + Z.abs j).
  apply (pow2_le_shift p d l N) in H; [| lia | lia].
  apply (pow2_le_shift p d j N); [lia | lia |].
  assert (2 ^ (N + j) <= 2 ^ (N + l)) by (apply Z.pow_le_mono_r; lia).
  nia.
Qed.

Lemma pow2_le_ratio (p d p' d' l : Z) :
  0 < d -> 0 < d' -> p * d' = p' * d -> pow2_le p d l = pow2_le p' d' l.
Proof.
  intros Hd Hd' H. unfold pow2_le.
  pose proof (pow2_pos (Z.max 0 l) ltac:(lia)) as HA.
  pose proof (pow2_pos (Z.max 0 (- l)) ltac:(lia)) as HB.
  set (A := 2 ^ Z.max 0 l) in *. set (B := 2 ^ Z.max 0 (- l)) in *.
  assert (Hiff : d * A <= p * B <-> d' * A <= p' * B).
  { split; intros Hle.
    - apply (mul_le_cancel _ _ d Hd).
      replace (p' * B * d) with (p * d' * B) by (rewrite H; ring).
      replace (d' * A * d) with (d * A * d') by ring.
      replace (p * d' * B) with (p * B * d') by ring.
      apply Z.mul_le_mono_nonneg_r; lia.
    - apply (mul_le_cancel _ _ d' Hd').
      replace (p * B * d') with (p' * d * B) by (rewrite <- H; ring).
      replace (d * A * d') with (d' * A * d) by ring.
      replace (p' * d * B) with (p' * B * d) by ring.
      apply Z.mul_le_mono_nonneg_r; lia. }
  destruct (Z.leb_spec (d * A) (p * B)), (Z.leb_spec (d' * A) (p' * B)); try reflexivity; lia.
Qed.

Lemma ilog2_ratio_spec (p d : Z) :
  0 < p -> 0 < d ->
  pow2_le p d (ilog2_ratio p d) = true /\ pow2_le p d (ilog2_ratio p d + 1) = false.
Proof.
  intros Hp Hd. unfold ilog2_ratio.
  pose proof (Z.log2_spec p Hp) as [Hp1 Hp2].
  pose proof (Z.log2_spec d Hd) as [Hd1 Hd2].
  pose proof (Z.log2_nonneg p) as Ha. pose proof (Z.log2_nonneg d) as Hb.
  set (a := Z.log2 p) in *. set (b := Z.log2 d) in *.
  assert (Hlow : pow2_le p d (a - b - 1) = true).
  { apply (pow2_le_shift p d (a - b - 1) (b + 1)); [lia | lia |].
    replace (b + 1 + (a - b - 1)) with a by ring.
    replace (Z.succ b) with (b + 1) in Hd2 by lia.
    pose proof (pow2_pos a Ha). nia. }
  assert (Hhigh : pow2_le p d (a - b + 1) = false).
  { destruct (pow2_le p d (a - b + 1)) eqn:E; [| reflexivity].
    apply (pow2_le_shift p d (a - b + 1) b) in E; [| lia | lia].
    replace (b + (a - b + 1)) with (a + 1) in E by ring.
    replace (Z.succ a) with (a + 1) in Hp2 by lia.
    pose proof (pow2_pos b Hb). nia. }
  destruct (pow2_le p d (a - b)) eqn:E.
  - split; [exact E | exact Hhigh].
  - split; [exact Hlow |]. replace (a - b - 1 + 1) with (a - b) by ring. exact E.
Qed.

Lemma ilog2_ratio_unique (p d l : Z) :
  0 < p -> 0 < d ->
  pow2_le p d l = true -> pow2_le p d (l + 1) = false -> ilog2_ratio p d = l.
Proof.
  intros Hp Hd H1 H2. destruct (ilog2_ratio_spec p d Hp Hd) as [H3 H4].
  destruct (Z.lt_trichotomy (ilog2_ratio p d) l) as [Hlt | [Heq | Hgt]]; [| exact Heq |].
  - rewrite (pow2_le_antitone p d l (ilog2_ratio p d + 1)) in H4; [discriminate | lia | lia | exact H1].
  - rewrite (pow2_le_antitone p d (ilog2_ratio p d) (l + 1)) in H2; [discriminate | lia | lia | exact H3].
Qed.

Lemma ilog2_ratio_ratio (p d p' d' : Z) :
  0 < p -> 0 < d -> 0 < p' -> 0 < d' -> p * d' = p' * d ->
  ilog2_ratio p d = ilog2_ratio p' d'.
Proof.
  intros Hp Hd Hp' Hd' H. apply ilog2_ratio_unique; try assumption.
  - rewrite (pow2_le_ratio p d p' d' _ Hd Hd' H). apply ilog2_ratio_spec; assumption.
  - rewrite (pow2_le_ratio p d p' d' _ Hd Hd' H). apply ilog2_ratio_spec; assumption.
Qed.

Lemma ilog2_ratio_below (p d K : Z) :
  0 < p -> 0 < d -> 0 <= K -> p < d * 2 ^ K -> ilog2_ratio p d < K.
Proof.
  intros Hp Hd HK H. destruct (ilog2_ratio_spec p d Hp Hd) as [H1 _].
  destruct (Z.lt_ge_cases (ilog2_ratio p d) K) as [Hlt | Hge]; [exact Hlt |].
  apply (pow2_le_antitone p d _ K) in H1; [| lia | lia].
  apply (pow2_le_shift p d K 0) in H1; [| lia | lia].
  rewrite Z.add_0_l, Z.pow_0_r in H1. lia.
Qed.

(** ** Rounding to binary64 *)

(** The rounding depends on the ratio only. *)
Lemma round64_ratio (neg : bool) (p d p' d' : Z) :
  0 <= p -> 0 < d -> 0 <= p' -> 0 < d' -> p * d' = p' * d ->
  round64 neg p d = round64 neg p' d'.
Proof.
  intros Hp Hd Hp' Hd' H. unfold round64.
  destruct (Z.eqb_spec p 0) as [-> | Hp0].
  - assert (p' = 0) as -> by nia. reflexivity.
  - destruct (Z.eqb_spec p' 0) as [-> | Hp0']; [nia |].
    rewrite (ilog2_ratio_ratio p d p' d') by (assumption || lia).
    set (e := Z.max (ilog2_ratio p' d' - (prec - 1)) emin).
    assert (Hm : scaled_rne p d e = scaled_rne p' d' e).
    { unfold scaled_rne.
      pose proof (pow2_pos (Z.max 0 e) ltac:(lia)).
      pose proof (pow2_pos (Z.max 0 (- e)) ltac:(lia)).
      apply rne_ratio; [nia | nia |].
      transitivity (p * d' * (2 ^ Z.max 0 (- e) * 2 ^ Z.max 0 e)); [ring |].
      rewrite H. ring. }
    rewrite Hm. reflexivity.
Qed.

(** A ratio below [2^K], for [0 <= K <= 52], rounds to a finite float
    that is off by at most [2^(K - 54)]: in units of [2^emin], by at
    most [2^(K + 1020)]. *)
Lemma round64_error (neg : bool) (p d K : Z) :
  0 <= p -> 0 < d -> 0 <= K <= 52 -> p < d * 2 ^ K ->
  exists m e,
    round64 neg p d = FFin neg m e
    /\ emin <= e /\ 0 <= m
    /\ Z.abs (scaled m e * d - p * 2 ^ (- emin)) <= d * 2 ^ (K + 1020).
Proof.
  intros Hp Hd HK Hlt. unfold round64.
  destruct (Z.eqb_spec p 0) as [-> | Hp0].
  - exists 0, emin. unfold scaled. cbn [Z.mul].
    pose proof (pow2_pos (K + 1020) ltac:(lia)).
    repeat split; lia.
  - pose proof (ilog2_ratio_below p d K ltac:(lia) Hd ltac:(lia) Hlt) as Hl.
    set (e := Z.max (ilog2_ratio p d - (prec - 1)) emin).
    assert (He : emin <= e <= K - 53) by (unfold e, prec, emin; lia).
    set (X := 2 ^ (- e)).
    assert (Hm0 : scaled_rne p d e = rne (p * X) d).
    { unfold scaled_rne. rewrite (Z.max_r 0 (- e)), (Z.max_l 0 e) by lia.
      rewrite Z.pow_0_r, Z.mul_1_r. reflexivity. }
    rewrite Hm0. set (m := rne (p * X) d).
    pose proof (pow2_pos (- e) ltac:(lia)) as HX. fold X in HX.
    pose proof (rne_bound (p * X) d Hd) as Hb. fold m in Hb.
    pose proof (rne_nonneg (p * X) d ltac:(nia) Hd) as Hm. fold m in Hm.
    set (Y := 2 ^ (e - emin)).
    pose proof (pow2_pos (e - emin) ltac:(lia)) as HY. fold Y in HY.
    assert (HXY : X * Y = 2 ^ (- emin)).
    { unfold X, Y. rewrite <- pow2_split by lia. f_equal. ring. }
    assert (HYK : 2 * 2 ^ (K + 1020) = Y * 2 ^ (K - 53 - e)).
    { unfold Y. rewrite <- (pow2_split (e - emin) (K - 53 - e)) by lia.
      replace (e - emin + (K - 53 - e)) with (1 + (K + 1020)) by (unfold emin; ring).
      rewrite (pow2_split 1 (K + 1020)) by lia. reflexivity. }
    pose proof (pow2_pos (K - 53 - e) ltac:(lia)) as HZ.
    assert (Hscaled : Z.abs (m * Y * d - p * 2 ^ (- emin)) <= d * 2 ^ (K + 1020)).
    { rewrite <- HXY.
      replace (m * Y * d - p * (X * Y)) with ((m * d - p * X) * Y) by ring.
      rewrite Z.abs_mul, (Z.abs_eq Y) by lia.
      assert (2 * (Z.abs (m * d - p * X) * Y) <= 2 * (d * 2 ^ (K + 1020))); [| lia].
      replace (2 * (d * 2 ^ (K + 1020))) with (d * (2 * 2 ^ (K + 1020))) by ring.
      rewrite HYK. nia. }
    destruct (Z.eqb_spec m (2 ^ prec)) as [E | E].
    + exists (2 ^ (prec - 1)), (e + 1).
      destruct (Z.ltb_spec (emax - prec) (e + 1)) as [Ho | Ho];
        [unfold emax, prec in Ho; lia |].
      split; [reflexivity |]. split; [lia |]. split.
      * apply Z.lt_le_incl, pow2_pos. unfold prec. lia.
      * unfold scaled. replace (e + 1 - emin) with (1 + (e - emin)) by ring.
        rewrite (pow2_split 1 (e - emin)) by lia. fold Y.
        replace (2 ^ (prec - 1) * (2 ^ 1 * Y)) with (2 ^ prec * Y)
          by (unfold prec; change (2 ^ 53) with (2 ^ (53 - 1) * 2 ^ 1); ring).
        rewrite <- E. exact Hscaled.
    + exists m, e.
      destruct (Z.ltb_spec (emax - prec) e) as [Ho | Ho];
        [unfold emax, prec in Ho; lia |].
      split; [reflexivity |]. split; [lia |]. split; [exact Hm | exact Hscaled].
Qed.

(** ** Differences of amounts in hundredths *)

Lemma cents_of_scaled (m e : Z) :
  emin <= e -> cents_of m e = rne (100 * scaled m e) (2 ^ (- emin)).
Proof.
  intros He. unfold cents_of, scaled.
  pose proof (pow2_pos (Z.max 0 e) ltac:(lia)).
  pose proof (pow2_pos (Z.max 0 (- e)) ltac:(lia)).
  apply rne_ratio; [lia | apply pow2_pos; unfold emin; lia |].
  transitivity (100 * m * (2 ^ Z.max 0 e * 2 ^ (- emin))); [ring |].
  transitivity (100 * m * (2 ^ (e - emin) * 2 ^ Z.max 0 (- e))); [| ring].
  f_equal.
  rewrite <- (pow2_split (Z.max 0 e) (- emin)) by (unfold emin in *; lia).
  rewrite <- (pow2_split (e - emin) (Z.max 0 (- e))) by (unfold emin in *; lia).
  f_equal. lia.
Qed.

Lemma scaled_nonneg (m e : Z) : 0 <= m -> emin <= e -> 0 <= scaled m e.
Proof.
  intros Hm He. unfold scaled. pose proof (pow2_pos (e - emin) ltac:(lia)). nia.
Qed.

Lemma unit_facts :
  2 ^ (- emin) = 1024 * 2 ^ (44 + 1020)
  /\ 2 ^ (45 + 1020) = 2 * 2 ^ (44 + 1020)
  /\ 0 < 2 ^ (44 + 1020).
Proof. vm_compute. repeat split. Qed.

(** Two amounts of [a] and [b] hundredths below ten to the fifteenth:
    the difference of their floats, printed with two decimals, is the
    exact difference. *)
Lemma fsub_cents (comma : bool) (a b : Z) :
  0 <= a < 10 ^ 15 -> 0 <= b < 10 ^ 15 ->
  format_f2 comma (fsub (round64 false a 100) (round64 false b 100))
  = show_cents comma (a <? b) (Z.abs (a - b)).
Proof.
  intros Ha Hb.
  destruct (Z.eq_dec a b) as [<- | Hab].
  { destruct (round64_error false a 100 44) as (ma & ea & Era & Hea & Hma & _);
      [lia | lia | lia | change (2 ^ 44) with 17592186044416; lia |].
    rewrite Era. unfold fsub. rewrite !Z.sub_diag, (Z.ltb_irrefl a).
    change (0 =? 0) with true. cbv iota. unfold format_f2.
    replace (cents_of 0 emin) with 0 by (vm_compute; reflexivity). reflexivity. }
  destruct (round64_error false a 100 44) as (ma & ea & Era & Hea & Hma & Hsa);
    [lia | lia | lia | change (2 ^ 44) with 17592186044416; lia |].
  destruct (round64_error false b 100 44) as (mb & eb & Erb & Heb & Hmb & Hsb);
    [lia | lia | lia | change (2 ^ 44) with 17592186044416; lia |].
  rewrite Era, Erb. unfold fsub, signed.
  pose proof (scaled_nonneg ma ea Hma Hea) as Hna.
  pose proof (scaled_nonneg mb eb Hmb Heb) as Hnb.
  set (Sa := scaled ma ea) in *. set (Sb := scaled mb eb) in *.
  destruct unit_facts as (HT & Hu2 & Hu).
  set (T := 2 ^ (- emin)) in *. set (u := 2 ^ (44 + 1020)) in *.
  assert (HaT : 0 <= a * T <= 999999999999999 * T) by nia.
  assert (HbT : 0 <= b * T <= 999999999999999 * T) by nia.
  assert (Habs : Z.abs (a - b) * T = Z.abs (a * T - b * T)).
  { replace (a * T - b * T) with ((a - b) * T) by ring.
    rewrite Z.abs_mul, (Z.abs_eq T) by lia. reflexivity. }
  assert (HabT : T <= Z.abs (a * T - b * T)) by (rewrite <- Habs; nia).
  assert (Hltb : (Sa - Sb <? 0) = (a <? b)).
  { assert (a * T < b * T <-> a < b) by nia.
    destruct (Z.ltb_spec (Sa - Sb) 0), (Z.ltb_spec a b); try reflexivity; lia. }
  destruct (Z.eqb_spec (Sa - Sb) 0) as [E | E]; [lia |].
  destruct (round64_error (Sa - Sb <? 0) (Z.abs (Sa - Sb)) T 45)
    as (m & e & Er & He & Hm & Hs); [lia | lia | lia | |].
  { change (2 ^ 45) with 35184372088832. lia. }
  fold T in Hs. rewrite Hu2 in Hs. rewrite Er. unfold format_f2.
  rewrite Hltb, (cents_of_scaled m e He). fold T.
  set (S := scaled m e) in *.
  assert (HS : Z.abs (S - Z.abs (Sa - Sb)) <= 2 * u).
  { replace (S * T - Z.abs (Sa - Sb) * T) with ((S - Z.abs (Sa - Sb)) * T) in Hs by ring.
    rewrite Z.abs_mul, (Z.abs_eq T) in Hs by lia. nia. }
  f_equal. apply rne_unique; [lia |]. rewrite Habs. lia.
Qed.

(** ** C1 and C2: the two profit-and-loss metrics *)

Lemma float_of_decimal (s : string) (neg : bool) (c scale : Z) :
  0 <= c -> 0 < scale -> reads_decimal s neg c scale ->
  float_of_string s = Ok (round64 neg c scale).
Proof.
  intros Hc Hs (body & D & X & Hsign & Hdec & Hval).
  unfold float_of_string. rewrite Hsign, Hdec. f_equal.
  pose proof (pow2_pos 0 ltac:(lia)) as _.
  assert (HP : 0 < 10 ^ Z.max 0 X) by (apply Z.pow_pos_nonneg; lia).
  assert (HQ : 0 < 10 ^ Z.max 0 (- X)) by (apply Z.pow_pos_nonneg; lia).
  apply round64_ratio; [nia | lia | lia | lia | exact Hval].
Qed.

Lemma py_float_amount (v : pyval) (c : Z) :
  0 <= c -> amount v c -> py_float v = Ok (round64 false c 100).
Proof.
  intros Hc H. destruct v as [| s |]; [contradiction | | contradiction].
  apply float_of_decimal; [exact Hc | lia | exact H].
Qed.

Lemma toml_float_baseline (v : toml) (c : Z) :
  0 <= c < 10 ^ 15 -> baseline v c -> toml_float v = Ok (round64 false c 100).
Proof.
  intros Hc H. destruct v as [s | z | f | b |]; try contradiction.
  - apply float_of_decimal; [lia | lia | exact H].
  - cbn in H. subst c. unfold toml_float, of_Z.
    destruct (Z.ltb_spec z 0) as [Hz | Hz]; [lia |].
    rewrite (Z.abs_eq z) by lia.
    rewrite (round64_ratio false z 1 (100 * z) 100) by lia.
    destruct (round64_error false (100 * z) 100 44) as (m & e & -> & _);
      [lia | lia | lia | change (2 ^ 44) with 17592186044416; lia |].
    reflexivity.
Qed.

(** C1 fails as stated.  With an equity of 9007199254740993.00 and a
    previous equity of 9007199254740992.00, one dollar less, "Today's
    P/L" shows "$0.00": both amounts convert to the same float. *)
Lemma todays_pl_counterexample :
  amount (Account.equity huge_account) 900719925474099300
  /\ amount (Account.last_equity huge_account) 900719925474099200
  /\ show_cents true false (900719925474099300 - 900719925474099200) = "1.00"
  /\ todays_pl_metric huge_account = Ok "$0.00".
Proof.
  split; [| split; [| split]].
  - exists "9007199254740993.00", 900719925474099300, (-2). repeat split.
  - exists "9007199254740992.00", 900719925474099200, (-2). repeat split.
  - vm_compute. reflexivity.
  - vm_compute. reflexivity.
Qed.

(** The float difference of 0.3 and 0.1 is not the float of 0.2, yet
    it prints as "$0.20". *)
Example small_difference_is_inexact :
  (let! x := float_of_string "0.3" in
   let! y := float_of_string "0.1" in Ok (fsub x y))
  = Ok (FFin false 7205759403792793 (-55))
  /\ float_of_string "0.2" = Ok (FFin false 7205759403792794 (-55))
  /\ todays_pl_metric {| Account.portfolio_value := VStr "0.3"; Account.cash := VStr "0";
                         Account.equity := VStr "0.3"; Account.last_equity := VStr "0.1" |}
     = Ok "$0.20".
Proof. vm_compute. repeat split. Qed.

(** C1, amended.  For an equity of [e] hundredths and a previous
    equity of [l] hundredths, both below ten to the thirteenth dollars,
    "Today's P/L" shows the exact difference [e - l] with two decimals,
    a dollar sign in front and commas between thousands. *)
Theorem todays_pl_of_cent_amounts (acct : Account.t) (e l : Z) :
  amount (Account.equity acct) e ->
  amount (Account.last_equity acct) l ->
  0 <= e < 10 ^ 15 -> 0 <= l < 10 ^ 15 ->
  todays_pl_metric acct = Ok ("$" +:+ show_cents true (e <? l) (Z.abs (e - l))).
Proof.
  intros He Hl Hbe Hbl. unfold todays_pl_metric.
  rewrite (py_float_amount _ e) by (lia || assumption).
  rewrite (py_float_amount _ l) by (lia || assumption).
  cbn [bind]. unfold dollars. rewrite fsub_cents by assumption. reflexivity.
Qed.

Lemma todays_pl_of_cent_amounts_witness :
  todays_pl_metric sample_account
  = Ok ("$" +:+ show_cents true (10532050 <? 10480000) (Z.abs (10532050 - 10480000))).
Proof.
  apply todays_pl_of_cent_amounts.
  - exists "105320.50", 10532050, (-2). repeat split.
  - exists "104800.00", 10480000, (-2). repeat split.
  - lia.
  - lia.
Defined.

(** C2 fails as stated.  With an equity of 9007199254840993.00 and a
    baseline of 100000.00 the difference is 9007199254740993.00, and
    "Total P/L" shows "$9,007,199,254,740,992.00". *)
Lemma total_pl_counterexample :
  amount (Account.equity huge_equity_account) 900719925484099300
  /\ baseline (TStr "100000.00") 10000000
  /\ show_cents true false (900719925484099300 - 10000000) = "9,007,199,254,740,993.00"
  /\ (let! total := toml_float (TStr "100000.00") in
      total_pl_metric huge_equity_account total)
     = Ok "$9,007,199,254,740,992.00".
Proof.
  split; [| split; [| split]].
  - exists "9007199254840993.00", 900719925484099300, (-2). repeat split.
  - exists "100000.00", 10000000, (-2). repeat split.
  - vm_compute. reflexivity.
  - vm_compute. reflexivity.
Qed.

(** C2, amended.  For an equity of [e] hundredths and a configured
    baseline of [b] hundredths, both below ten to the thirteenth
    dollars, "Total P/L" shows the exact difference [e - b] with two
    decimals.  With equity 105320.50, previous equity 104800.00 and
    baseline 100000.00 the two metrics show "$520.50" and "$5,320.50". *)
Theorem total_pl_of_cent_amounts :
  (forall (acct : Account.t) (v : toml) (total : pyfloat) (e b : Z),
      amount (Account.equity acct) e ->
      baseline v b ->
      toml_float v = Ok total ->
      0 <= e < 10 ^ 15 -> 0 <= b < 10 ^ 15 ->
      total_pl_metric acct total = Ok ("$" +:+ show_cents true (e <? b) (Z.abs (e - b))))
  /\ todays_pl_metric sample_account = Ok "$520.50"
  /\ (let! total := toml_float (TStr "100000.00") in total_pl_metric sample_account total)
     = Ok "$5,320.50".
Proof.
  split; [| split; vm_compute; reflexivity].
  intros acct v total e b He Hb Hv Hbe Hbb. unfold total_pl_metric.
  rewrite (py_float_amount _ e) by (lia || assumption).
  rewrite (toml_float_baseline v b Hbb Hb) in Hv. injection Hv as <-.
  cbn [bind]. unfold dollars. rewrite fsub_cents by assumption. reflexivity.
Qed.

Lemma total_pl_of_cent_amounts_witness :
  total_pl_metric sample_account (of_Z 100000)
  = Ok ("$" +:+ show_cents true (10532050 <? 10000000) (Z.abs (10532050 - 10000000))).
Proof.
  apply (proj1 total_pl_of_cent_amounts sample_account (TInt 100000)).
  - exists "105320.50", 10532050, (-2). repeat split.
  - reflexivity.
  - vm_compute. reflexivity.
  - lia.
  - lia.
Defined.

(** ** Traces of the helpers *)

(** The helpers, unfolded down to the answers of the remote. *)
Ltac unfold_helpers :=
  unfold get_account_data, get_portfolio_history, try_except_APIError,
    request, bindM, ret, emit, lift.

(** Every way the three requests of [get_account_data] can end. *)
Ltac case_requests a :=
  destruct (Client.get_account a) as [? | [ ] ];
  destruct (Client.list_positions a) as [? | [ ] ];
  destruct (Client.list_orders a "closed" 100 "desc") as [? | [ ] ].

Lemma get_account_data_trace (a : Client.t) :
  forallb (fun ev => is_call ev || is_error ev) (fst (get_account_data a)) = true
  /\ forallb is_error (filter is_element (fst (get_account_data a))) = true.
Proof. unfold_helpers. case_requests a; cbn; auto. Qed.

Lemma get_portfolio_history_trace (a : Client.t) :
  forallb (fun ev => is_call ev || is_error ev) (fst (get_portfolio_history a)) = true
  /\ forallb is_error (filter is_element (fst (get_portfolio_history a))) = true.
Proof.
  unfold_helpers.
  destruct (Client.get_portfolio_history a "1M" "1D") as [h | [ ] ]; cbn; auto.
  destruct (DataFrame h) as [df | [ ] ]; cbn; auto.
  destruct (to_datetime df) as [df' | [ ] ]; cbn; auto.
Qed.

Lemma forallb_weaken {A : Type} (p q : A -> bool) (l : list A) :
  (forall x, p x = true -> q x = true) -> forallb p l = true -> forallb q l = true.
Proof.
  intros Hpq. induction l as [| x l IH]; cbn; [reflexivity |].
  rewrite !andb_true_iff. intros [Hx Hl]. auto.
Qed.

Lemma no_section_of_forallb (p : event -> bool) (l : list event) :
  (forall ev, p ev = true -> is_section ev = false) ->
  forallb p l = true -> existsb is_section l = false.
Proof.
  intros Hp. induction l as [| x l IH]; cbn; [reflexivity |].
  rewrite andb_true_iff. intros [Hx Hl]. rewrite (Hp x Hx), (IH Hl). reflexivity.
Qed.

Lemma existsb_app_false {A : Type} (p : A -> bool) (l1 l2 : list A) :
  existsb p l1 = false -> existsb p l2 = false -> existsb p (l1 ++ l2) = false.
Proof. intros H1 H2. rewrite existsb_app, H1, H2. reflexivity. Qed.

Lemma call_or_error_no_section (ev : event) :
  is_call ev || is_error ev = true -> is_section ev = false.
Proof. destruct ev; cbn; congruence. Qed.

Lemma error_no_section (ev : event) : is_error ev = true -> is_section ev = false.
Proof. destruct ev; cbn; congruence. Qed.

(** A call of a decorated helper draws no section, and keeps the
    stored replays to error messages. *)
Lemma cache_data_trace {A : Type} (loads : A -> result A) (ttl t : Z) (slot : option (entry A)) (f : M A) :
  slot_ok slot = true ->
  forallb (fun ev => is_call ev || is_error ev) (fst f) = true ->
  forallb is_error (filter is_element (fst f)) = true ->
  existsb is_section (fst (fst (cache_data loads ttl t slot f))) = false
  /\ slot_ok (snd (cache_data loads ttl t slot f)) = true.
Proof.
  intros Hslot Hf Hel. unfold cache_data.
  assert (Hrun : existsb is_section (fst f) = false)
    by (eapply no_section_of_forallb; [apply call_or_error_no_section | exact Hf]).
  destruct slot as [en |].
  - destruct (t <? stored_at en + ttl).
    + destruct (loads (value en)) as [a | e]; cbn; (split; [| exact Hslot]).
      * eapply no_section_of_forallb; [apply error_no_section | exact Hslot].
      * reflexivity.
    + destruct f as [tr [a | e]]; cbn in *; auto.
  - destruct f as [tr [a | e]]; cbn in *; auto.
Qed.

(** The fetches draw the page head and what the helpers draw: no
    section; and they keep the cache well formed. *)
Lemma fetches_trace (cfg : config) (w : world) (c : cache) :
  cache_ok c = true ->
  existsb is_section (fst (fst (fetches cfg w c))) = false
  /\ cache_ok (snd (fetches cfg w c)) = true.
Proof.
  intros Hc. unfold fetches.
  set (head := [EvPageConfig _; _; _]).
  assert (Hc0 : exists hd c0,
             (if refresh_clicked w then (head ++ [EvCacheClear], cache_clear c) else (head, c))
             = (hd, c0) /\ existsb is_section hd = false /\ cache_ok c0 = true).
  { destruct (refresh_clicked w); eauto. }
  destruct Hc0 as (hd & c0 & -> & Hhd & Hc0).
  unfold cache_ok in Hc0. apply andb_true_iff in Hc0 as [Ha Hh].
  unfold cached_get_account_data.
  destruct (get_account_data_trace (api cfg)) as [Ht1 He1].
  destruct (cache_data_trace loads_account_data 300 (now w) (account_slot c0) (get_account_data (api cfg)) Ha Ht1 He1)
    as [Hs1 Hk1].
  destruct (cache_data loads_account_data 300 (now w) (account_slot c0) (get_account_data (api cfg)))
    as [[tr1 r1] slot1]. cbn in Hs1, Hk1.
  destruct r1 as [data | e].
  2:{ cbn. split; [apply existsb_app_false; assumption |].
      unfold cache_ok; cbn. rewrite Hk1, Hh. reflexivity. }
  unfold cached_get_portfolio_history. cbn [account_slot history_slot].
  destruct (get_portfolio_history_trace (api cfg)) as [Ht2 He2].
  destruct (cache_data_trace loads_frame 3600 (now w) (history_slot c0) (get_portfolio_history (api cfg)) Hh Ht2 He2)
    as [Hs2 Hk2].
  destruct (cache_data loads_frame 3600 (now w) (history_slot c0) (get_portfolio_history (api cfg)))
    as [[tr2 r2] slot2]. cbn in Hs2, Hk2.
  destruct r2 as [df | e]; cbn.
  all: split; [repeat apply existsb_app_false; assumption |].
  all: unfold cache_ok; cbn; rewrite Hk1, Hk2; reflexivity.
Qed.

(** Every run leaves the cache well formed; the process starts with
    [empty_cache], which is. *)
Lemma script_keeps_cache_ok (w : world) (c : cache) :
  cache_ok c = true -> cache_ok (snd (script w c)) = true.
Proof.
  intros Hc. unfold script.
  destruct (startup w) as [tr0 [cfg | | e]]; [| exact Hc | exact Hc].
  pose proof (fetches_trace cfg w c Hc) as [_ Hk].
  unfold page. destruct (fetches cfg w c) as [m c'].
  destruct (do fetched <- m; dashboard (fst fetched) (snd fetched) (TOTAL_PORTFOLIO_CASH cfg))
    as [tr r].
  exact Hk.
Qed.

(** ** C3: failures of the client *)





(** ** C4: the account guard *)

Lemma dashboard_without_account (positions : list Position.t) (orders : list Order.t)
      (history_df : frame) (total : pyfloat) :
  dashboard (None, positions, orders) history_df total = ([EvError no_account_message], Ok tt).
Proof. reflexivity. Qed.

(** C4.  When the fetches hand over no account snapshot, the page adds
    exactly one message to what the fetches drew, the top-level error,
    and nothing else.  A run whose fetches do not hand over an account
    snapshot draws no section: no header, metric, chart, table, warning
    or empty-state message, whatever the positions and orders are. *)
Theorem account_guard (cfg : config) (w : world) (c : cache) :
  cache_ok c = true ->
  (forall (tr : list event) (positions : list Position.t) (orders : list Order.t)
          (history_df : frame) (c' : cache),
      fetches cfg w c = ((tr, Ok ((None, positions, orders), history_df)), c') ->
      page cfg w c = ((tr ++ [EvError no_account_message], Ok tt), c'))
  /\ ((forall (acct : Account.t) (positions : list Position.t) (orders : list Order.t)
              (history_df : frame),
         snd (fst (fetches cfg w c)) <> Ok ((Some acct, positions, orders), history_df)) ->
      existsb is_section (fst (fst (page cfg w c))) = false).
Proof.
  intros Hc. pose proof (fetches_trace cfg w c Hc) as [Hs _]. split.
  - intros tr positions orders history_df c' Hf. unfold page. rewrite Hf. reflexivity.
  - intros Hnone. unfold page.
    destruct (fetches cfg w c) as [[tr [[[[[acct |] positions] orders] history_df] | e]] c'];
      cbn in Hs, Hnone |- *.
    + exfalso. eapply Hnone. reflexivity.
    + apply existsb_app_false; [exact Hs | reflexivity].
    + exact Hs.
Qed.

Lemma account_guard_witness :
  page (sample_config (failing_client (APIError "forbidden.")))
       (sample_world (failing_client (APIError "forbidden.")) 0 false) empty_cache
  = (([EvPageConfig "Alpaca Trading Performance";
       EvTitle "📈 Alpaca Trading Performance Overview";
       EvButton "Refresh Data";
       EvCall GetAccount;
       EvError "Error fetching data from Alpaca: forbidden.";
       EvCall (GetPortfolioHistory "1M" "1D");
       EvError "Error fetching portfolio history: forbidden."]
      ++ [EvError no_account_message], Ok tt),
     {| account_slot :=
          Some {| stored_at := 0; value := (None, [], []);
                  replay := [EvError "Error fetching data from Alpaca: forbidden."] |};
        history_slot :=
          Some {| stored_at := 0; value := [];
                  replay := [EvError "Error fetching portfolio history: forbidden."] |} |})
  /\ existsb is_section
       (fst (fst (page (sample_config (failing_client (OtherError "ConnectionError")))
                       (sample_world (failing_client (OtherError "ConnectionError")) 0 false)
                       empty_cache)))
     = false.
Proof.
  split.
  - apply (proj1 (account_guard _ _ empty_cache eq_refl) _ [] [] []). reflexivity.
  - apply (proj2 (account_guard _ _ empty_cache eq_refl)). discriminate.
Defined.

(** ** C5: the two caches *)

Lemma cache_data_miss {A : Type} (loads : A -> result A) (ttl t : Z)
      (slot : option (entry A)) (f : M A) :
  stale ttl t slot ->
  cache_data loads ttl t slot f
  = match f with
    | (tr, Ok a) =>
        ((tr, Ok a), Some {| stored_at := t; value := a; replay := filter is_element tr |})
    | (tr, Raise e) => ((tr, Raise e), None)
    end.
Proof.
  unfold stale, cache_data. destruct slot as [en |]; [| reflexivity].
  intros H. destruct (Z.ltb_spec t (stored_at en + ttl)); [lia | reflexivity].
Qed.

Lemma cache_data_hit {A : Type} (loads : A -> result A) (ttl t : Z) (en : entry A) (f : M A) :
  t < stored_at en + ttl ->
  cache_data loads ttl t (Some en) f
  = (match loads (value en) with
     | Ok a => (replay en, Ok a)
     | Raise e => ([], Raise e)
     end, Some en).
Proof.
  intros H. unfold cache_data.
  destruct (Z.ltb_spec t (stored_at en + ttl)); [| lia].
  destruct (loads (value en)); reflexivity.
Qed.

Lemma cache_data_hit_frame (ttl t : Z) (en : entry frame) (f : M frame) :
  t < stored_at en + ttl ->
  cache_data loads_frame ttl t (Some en) f = ((replay en, Ok (value en)), Some en).
Proof. intros H. rewrite (cache_data_hit loads_frame ttl t en f H). reflexivity. Qed.

(** Account data can be read back only when they hold no entity: the
    substitute of a failed fetch. *)
Lemma loads_account_data_cases (data : account_data) :
  loads_account_data data
  = match data with
    | (None, [], []) => Ok (None, [], [])
    | _ => Raise RecursionError
    end.
Proof. destruct data as [[[acct |] [| p ps]] [| o os]]; reflexivity. Qed.

Lemma replay_has_no_call (tr : list event) : existsb is_call (filter is_element tr) = false.
Proof.
  induction tr as [| ev tr IH]; cbn; [reflexivity |].
  destruct ev; cbn; exact IH.
Qed.

Lemma get_account_data_head (a : Client.t) :
  exists tr r, get_account_data a = (EvCall GetAccount :: tr, r).
Proof. unfold_helpers. case_requests a; cbn; eauto. Qed.

Lemma get_portfolio_history_head (a : Client.t) :
  exists tr r, get_portfolio_history a = (EvCall (GetPortfolioHistory "1M" "1D") :: tr, r).
Proof.
  unfold_helpers.
  destruct (Client.get_portfolio_history a "1M" "1D") as [h | [ ] ]; cbn; eauto.
  destruct (DataFrame h) as [df | [ ] ]; cbn; eauto.
  destruct (to_datetime df) as [df' | [ ] ]; cbn; eauto.
Qed.

(** A call that finds its slot stale and returns stores what it
    returns; a later call before the time to live has passed sends no
    request, leaves the slot as it is and answers with what [loads]
    makes of the stored value. *)
Lemma cache_data_second_call {A : Type} (loads : A -> result A) (ttl t1 t2 : Z)
      (slot slot1 : option (entry A)) (f1 f2 : M A) (tr1 : list event) (d : A) :
  stale ttl t1 slot ->
  cache_data loads ttl t1 slot f1 = ((tr1, Ok d), slot1) ->
  t2 < t1 + ttl ->
  cache_data loads ttl t2 slot1 f2
  = (match loads d with
     | Ok a => (filter is_element tr1, Ok a)
     | Raise e => ([], Raise e)
     end, slot1).
Proof.
  intros Hs H1 Ht. rewrite (cache_data_miss _ _ _ _ _ Hs) in H1.
  destruct f1 as [tr [a | e]]; [| discriminate].
  injection H1 as <- <- <-. apply cache_data_hit. cbn. lia.
Qed.

Lemma account_hit_raises (a : Client.t) (t : Z) (c : cache) (en : entry account_data)
      (acct : Account.t) (positions : list Position.t) (orders : list Order.t) :
  account_slot c = Some en ->
  value en = (Some acct, positions, orders) ->
  t < stored_at en + 300 ->
  cached_get_account_data a t c
  = (([], Raise RecursionError),
     {| account_slot := Some en; history_slot := history_slot c |}).
Proof.
  intros Hslot Hv Ht. unfold cached_get_account_data.
  rewrite Hslot, (cache_data_hit loads_account_data 300 t en _ Ht), Hv.
  rewrite loads_account_data_cases. reflexivity.
Qed.

(** C5 fails on the code, by a defect of the code: the decorator of
    line 34 is there to "cache data for 5 minutes", but what a
    successful fetch stores cannot be read back.

    After an account fetch at [t1] that found no fresh entry and
    returned an account snapshot, a call at [t2] with
    [t1 <= t2 < t1 + 300] sends no request, and does not return the
    data either: it raises [RecursionError], draws nothing and leaves
    the entry where it is.  So a run that finds such an entry younger
    than 300 seconds, and was not started by "Refresh Data", ends with
    this exception after the title and the button, without a section,
    and leaves the cache as it found it: the next run does the same,
    until the entry expires. *)
Theorem cached_account_data_cannot_be_read_back :
  (forall (a1 a2 : Client.t) (c c1 : cache) (t1 t2 : Z) (tr1 : list event)
          (acct : Account.t) (positions : list Position.t) (orders : list Order.t),
      stale 300 t1 (account_slot c) ->
      cached_get_account_data a1 t1 c = ((tr1, Ok (Some acct, positions, orders)), c1) ->
      t1 <= t2 < t1 + 300 ->
      cached_get_account_data a2 t2 c1 = (([], Raise RecursionError), c1))
  /\ (forall (w : world) (cfg : config) (c : cache) (en : entry account_data)
             (acct : Account.t) (positions : list Position.t) (orders : list Order.t),
         account_slot c = Some en ->
         value en = (Some acct, positions, orders) ->
         now w < stored_at en + 300 ->
         refresh_clicked w = false ->
         read_secrets w = Ok cfg ->
         script w c
         = ([EvLog "✅ Alpaca API connection successful.";
             EvPageConfig "Alpaca Trading Performance";
             EvTitle "📈 Alpaca Trading Performance Overview";
             EvButton "Refresh Data"],
            Crashed RecursionError, c)).
Proof.
  split.
  - intros a1 a2 c c1 t1 t2 tr1 acct positions orders Hs H Ht.
    unfold cached_get_account_data in H.
    rewrite (cache_data_miss _ _ _ _ _ Hs) in H.
    destruct (get_account_data a1) as [tr [d | e]]; [| discriminate].
    injection H as <- -> <-.
    rewrite (account_hit_raises a2 t2
               {| account_slot :=
                    Some {| stored_at := t1; value := (Some acct, positions, orders);
                            replay := filter is_element tr |};
                  history_slot := history_slot c |}
               {| stored_at := t1; value := (Some acct, positions, orders);
                  replay := filter is_element tr |}
               acct positions orders eq_refl eq_refl);
      [reflexivity | cbn; lia].
  - intros w cfg c en acct positions orders Hslot Hv Ht Hr Hcfg.
    unfold script, startup. rewrite Hcfg. unfold page, fetches. rewrite Hr.
    rewrite (account_hit_raises (api cfg) (now w) c en acct positions orders Hslot Hv Ht).
    cbn. destruct c as [sa sh]. cbn in Hslot. rewrite Hslot. reflexivity.
Qed.

Lemma cached_account_data_cannot_be_read_back_witness :
  cached_get_account_data (failing_client (OtherError "ConnectionError")) 299 cache_with_account
  = (([], Raise RecursionError), cache_with_account)
  /\ script (sample_world healthy_client 299 false) cache_with_account
     = ([EvLog "✅ Alpaca API connection successful.";
         EvPageConfig "Alpaca Trading Performance";
         EvTitle "📈 Alpaca Trading Performance Overview";
         EvButton "Refresh Data"],
        Crashed RecursionError, cache_with_account).
Proof.
  pose proof cached_account_data_cannot_be_read_back as [H1 H2].
  split.
  - apply (H1 healthy_client (failing_client (OtherError "ConnectionError")) empty_cache _ 0 299
              [EvCall GetAccount; EvCall ListPositions; EvCall (ListOrders "closed" 100 "desc")]
              sample_account [sample_position] [filled_order "AAPL" 3 15]).
    + exact I.
    + reflexivity.
    + lia.
  - apply (H2 (sample_world healthy_client 299 false) (sample_config healthy_client)
              cache_with_account
              {| stored_at := 0;
                 value := (Some sample_account, [sample_position], [filled_order "AAPL" 3 15]);
                 replay := [] |}
              sample_account [sample_position] [filled_order "AAPL" 3 15]).
    + reflexivity.
    + reflexivity.
    + cbn. lia.
    + reflexivity.
    + vm_compute. reflexivity.
Defined.

(** ** C6: the closed orders *)


Lemma for_each_Forall2 {A B : Type} (f : A -> result B) (l : list A) (rows : list B) :
  for_each f l = Ok rows -> Forall2 (fun x y => f x = Ok y) l rows.
Proof.
  revert rows. induction l as [| x l IH]; cbn; intros rows H.
  - injection H as <-. constructor.
  - destruct (f x) as [y |] eqn:Hy; [| discriminate]. cbn in H.
    destruct (for_each f l) as [ys |]; [| discriminate]. cbn in H.
    injection H as <-. constructor; auto.
Qed.




(** ** C7: empty tables *)

Lemma bindM_emit_trace {B : Type} (ev : event) (k : M B) :
  fst (emit ev ;; k) = ev :: fst k.
Proof. unfold bindM, emit. destruct k as [tr r]. reflexivity. Qed.

Lemma bindM_lift_raise {A B : Type} (e : exn) (k : A -> M B) :
  (do x <- lift (Raise e); k x) = ([], Raise e).
Proof. reflexivity. Qed.

Lemma bindM_lift_ok {A B : Type} (a : A) (k : A -> M B) :
  (do x <- lift (Ok a); k x) = k a.
Proof. unfold bindM, lift. destruct (k a) as [tr r]. reflexivity. Qed.

(** C7.  An empty positions list draws the header and the message
    "No open positions.", an empty orders list the header and
    "No recent closed orders found."; with an account and both lists
    empty the dashboard draws no table at all. *)
Theorem empty_lists_draw_messages :
  render_positions [] = ([EvHeader "Current Open Positions"; EvInfo "No open positions."], Ok tt)
  /\ render_orders []
     = ([EvHeader "Recent Closed Orders (Last 100)"; EvInfo "No recent closed orders found."],
        Ok tt)
  /\ forall (acct : Account.t) (history_df : frame) (total : pyfloat),
       existsb is_dataframe (fst (dashboard (Some acct, [], []) history_df total)) = false.
Proof.
  split; [reflexivity | split; [reflexivity |]].
  intros acct history_df total. unfold dashboard, render_kpis.
  destruct (portfolio_value_metric acct) as [v1 | e1];
    [rewrite bindM_lift_ok | reflexivity].
  destruct (cash_metric acct) as [v2 | e2];
    [rewrite bindM_lift_ok | reflexivity].
  destruct (todays_pl_metric acct) as [v3 | e3];
    [rewrite bindM_lift_ok | reflexivity].
  destruct (total_pl_metric acct total) as [v4 | e4];
    [rewrite bindM_lift_ok | reflexivity].
  destruct history_df; reflexivity.
Qed.

Example empty_lists_on_the_page :
  fst (dashboard (Some sample_account, [], []) [] (of_Z 100000))
  = [EvHeader "Key Performance Indicators"; EvColumns 4;
     EvMetric "Portfolio Value" "$105,320.50"; EvMetric "Cash Balance" "$25,000.00";
     EvMetric "Today's P/L" "$520.50"; EvMetric "Total P/L" "$5,320.50";
     EvHeader "Portfolio Value Over Time (30 Days)";
     EvWarning "Could not load portfolio history chart.";
     EvHeader "Current Open Positions"; EvInfo "No open positions.";
     EvHeader "Recent Closed Orders (Last 100)"; EvInfo "No recent closed orders found."].
Proof. vm_compute. reflexivity. Qed.

(** ** C8: percentages *)

Lemma percent_facts :
  of_Z 100 = FFin false 7036874417766400 (-46)
  /\ scaled 7036874417766400 (-46) = 100 * 2 ^ (- emin)
  /\ 2 ^ (- emin) = 16777216 * 2 ^ (30 + 1020)
  /\ 2 ^ (37 + 1020) = 128 * 2 ^ (30 + 1020)
  /\ 0 < 2 ^ (30 + 1020).
Proof. vm_compute. repeat split. Qed.

(** A ratio of [k] ten-thousandths below a billion: its float times
    100, printed with two decimals, is [k] hundredths. *)
Lemma fmul_percent (neg : bool) (k : Z) :
  0 <= k < 10 ^ 13 ->
  format_f2 false (fmul (round64 neg k 10000) (of_Z 100)) = show_cents false neg k.
Proof.
  intros Hk.
  destruct (round64_error neg k 10000 30) as (mr & er & Er & Her & Hmr & Hsr);
    [lia | lia | lia | change (2 ^ 30) with 1073741824; lia |].
  destruct percent_facts as (H100 & Hs100 & HT & Hu2 & Hu).
  rewrite Er, H100. unfold fmul. rewrite Hs100, xorb_false_r.
  pose proof (scaled_nonneg mr er Hmr Her) as Hnr.
  set (Sr := scaled mr er) in *.
  set (T := 2 ^ (- emin)) in *. set (u := 2 ^ (30 + 1020)) in *.
  assert (HkT : 0 <= k * T <= 9999999999999 * T) by nia.
  destruct (round64_error neg (Sr * (100 * T)) (T * T) 37)
    as (m & e & Er2 & He & Hm & Hs); [nia | nia | lia | |].
  { change (2 ^ 37) with 137438953472.
    replace (Sr * (100 * T)) with (100 * Sr * T) by ring.
    replace (T * T * 137438953472) with (137438953472 * T * T) by ring.
    apply Z.mul_lt_mono_pos_r; lia. }
  fold T in Hs. rewrite Hu2 in Hs. rewrite Er2. unfold format_f2.
  rewrite (cents_of_scaled m e He). fold T.
  set (S := scaled m e) in *.
  assert (HS : Z.abs (S - 100 * Sr) <= 128 * u).
  { replace (S * (T * T) - Sr * (100 * T) * T) with ((S - 100 * Sr) * (T * T)) in Hs by ring.
    assert (0 < T * T) by nia.
    rewrite Z.abs_mul, (Z.abs_eq (T * T)) in Hs by lia.
    replace (T * T * (128 * u)) with (128 * u * (T * T)) in Hs by ring.
    apply (mul_le_cancel _ _ (T * T)); assumption. }
  f_equal. apply rne_unique; [lia |]. lia.
Qed.

(** C8.  The position holds the ratio as the client sent it; the
    "Unrealized P/L (%)" cell is its float times 100 with two decimals
    and a percent sign.  For a ratio of [k] ten-thousandths the cell
    shows [k] hundredths of a percent; the position of the example, with
    [unrealized_plpc = 0.0532], shows "5.32%". *)
Theorem percent_is_scaled_at_display :
  (forall (p : Position.t) (row : position_row) (neg : bool) (k : Z),
      position_row_of p = Ok row ->
      ratio (Position.unrealized_plpc p) neg k ->
      0 <= k < 10 ^ 13 ->
      pr_Unrealized_PL_pct row = show_cents false neg k +:+ "%")
  /\ Position.qty sample_position = VStr "10"
  /\ Position.side sample_position = "long"
  /\ Position.unrealized_plpc sample_position = VStr "0.0532"
  /\ option_map pr_Unrealized_PL_pct
       (match position_row_of sample_position with Ok row => Some row | Raise _ => None end)
     = Some "5.32%".
Proof.
  split; [| repeat split].
  intros p row neg k Hrow Hr Hk. unfold position_row_of in Hrow.
  destruct (py_float (Position.qty p)) as [q |]; [| discriminate].
  destruct (py_float (Position.market_value p)) as [mv |]; [| discriminate].
  destruct (py_float (Position.cost_basis p)) as [cb |]; [| discriminate].
  destruct (py_float (Position.unrealized_pl p)) as [pl |]; [| discriminate].
  cbn [bind] in Hrow.
  destruct (Position.unrealized_plpc p) as [| s |]; [contradiction | | contradiction].
  cbn [py_float] in Hrow.
  rewrite (float_of_decimal s neg k 10000) in Hrow by (lia || exact Hr).
  cbn [bind] in Hrow. injection Hrow as <-. cbn [pr_Unrealized_PL_pct].
  rewrite fmul_percent by exact Hk. reflexivity.
Qed.

Lemma percent_is_scaled_at_display_witness :
  pr_Unrealized_PL_pct
    {| pr_Symbol := "AAPL"; pr_Qty := of_Z 10; pr_Side := "Long";
       pr_Market_Value := "$1,753.20"; pr_Cost_Basis := "$1,664.64";
       pr_Unrealized_PL := "$88.56"; pr_Unrealized_PL_pct := "5.32%" |}
  = show_cents false false 532 +:+ "%".
Proof.
  apply (proj1 percent_is_scaled_at_display sample_position _ false 532).
  - vm_compute. reflexivity.
  - exists "0.0532", 532, (-4). repeat split.
  - lia.
Defined.

(** ** C9: loading the configuration *)

Lemma read_secrets_raises_without (w : world) :
  secret w "alpaca" "api_key" = None
  \/ secret w "alpaca" "secret_key" = None
  \/ secret w "account" "total_portfolio_cash" = None
  \/ (exists v e, secret w "account" "total_portfolio_cash" = Some v /\ toml_float v = Raise e) ->
  exists e, read_secrets w = Raise e.
Proof.
  unfold secret, read_secrets, subscript.
  destruct (secrets w !! "alpaca") as [alpaca |]; cbn; [| eauto].
  destruct (alpaca !! "api_key") as [key |]; cbn; [| eauto].
  destruct (alpaca !! "secret_key") as [sk |]; cbn; [| eauto].
  destruct (secrets w !! "account") as [account |]; cbn; [| eauto].
  destruct (account !! "total_portfolio_cash") as [total |]; cbn; [| eauto].
  intros [H | [H | [H | (v & e & H & Hv)]]]; try discriminate.
  injection H as <-. rewrite Hv. cbn. eauto.
Qed.

(** C9.  When [api_key], [secret_key] or [total_portfolio_cash] is
    absent, or [total_portfolio_cash] does not convert to a float, the
    run draws the one fatal message and stops: nothing else is drawn,
    no request is sent and the cache is as it was.  [base_url] alone may
    be absent: the connection is then made to the paper-trading
    endpoint. *)
Theorem configuration_is_fail_fast (w : world) (c : cache) :
  (secret w "alpaca" "api_key" = None
   \/ secret w "alpaca" "secret_key" = None
   \/ secret w "account" "total_portfolio_cash" = None
   \/ (exists v e, secret w "account" "total_portfolio_cash" = Some v
                   /\ toml_float v = Raise e) ->
   script w c = ([EvError fatal_message], Stopped, c))
  /\ (forall (key sk total : toml) (f : pyfloat) (a : Client.t),
         secret w "alpaca" "api_key" = Some key ->
         secret w "alpaca" "secret_key" = Some sk ->
         secret w "alpaca" "base_url" = None ->
         secret w "account" "total_portfolio_cash" = Some total ->
         toml_float total = Ok f ->
         REST w key sk (TStr paper_url) = Ok a ->
         startup w
         = ([EvLog "✅ Alpaca API connection successful."],
            Finished {| API_KEY := key; API_SECRET := sk; BASE_URL := TStr paper_url;
                        TOTAL_PORTFOLIO_CASH := f; api := a |})).
Proof.
  split.
  - intros H. destruct (read_secrets_raises_without w H) as [e He].
    unfold script, startup. rewrite He. reflexivity.
  - intros key sk total f a. unfold secret, startup, read_secrets, subscript, get_default.
    destruct (secrets w !! "alpaca") as [alpaca |]; [| discriminate].
    intros H1 H2 H3.
    destruct (secrets w !! "account") as [account |]; [| discriminate].
    intros H4 Hf Hr. cbn [bind]. rewrite H1. cbn [bind]. rewrite H2. cbn [bind].
    rewrite H3, H4. cbn [bind]. rewrite Hf. cbn [bind]. rewrite Hr. reflexivity.
Qed.

Lemma configuration_is_fail_fast_witness :
  script (world_with secrets_without_account) empty_cache
  = ([EvError fatal_message], Stopped, empty_cache)
  /\ script (world_with secrets_with_bad_baseline) empty_cache
     = ([EvError fatal_message], Stopped, empty_cache)
  /\ startup (world_with sample_secrets)
     = ([EvLog "✅ Alpaca API connection successful."],
        Finished {| API_KEY := TStr "PK0000"; API_SECRET := TStr "s3cr3t";
                    BASE_URL := TStr paper_url;
                    TOTAL_PORTFOLIO_CASH := FFin false 6871947673600000 (-36);
                    api := healthy_client |}).
Proof.
  split; [| split].
  - apply (proj1 (configuration_is_fail_fast (world_with secrets_without_account) empty_cache)).
    right. right. left. vm_compute. reflexivity.
  - apply (proj1 (configuration_is_fail_fast (world_with secrets_with_bad_baseline) empty_cache)).
    right. right. right. exists (TStr "one hundred thousand"), ValueError.
    split; vm_compute; reflexivity.
  - apply (proj2 (configuration_is_fail_fast (world_with sample_secrets) empty_cache)
             (TStr "PK0000") (TStr "s3cr3t") (TStr "100000.00")).
    all: vm_compute; reflexivity.
Defined.

(** ** C10: rows of orders that never filled *)

(** C10.  A row is built for an order exactly when [filled_qty] and
    [filled_avg_price] convert to floats and [filled_at] is a
    timestamp.  A canceled order without a fill has
    [filled_avg_price = None]: its row raises [TypeError], no table is
    drawn for a list that holds it, and the run ends with that
    exception. *)
Theorem order_row_needs_a_fill :
  (forall o : Order.t,
      (exists row, order_row_of o = Ok row)
      <-> ((exists q, py_float (Order.filled_qty o) = Ok q)
           /\ (exists p, py_float (Order.filled_avg_price o) = Ok p)
           /\ (exists t, Order.filled_at o = Some t)))
  /\ order_row_of canceled_order = Raise TypeError
  /\ render_orders [filled_order "AAPL" 3 15; canceled_order]
     = ([EvHeader "Recent Closed Orders (Last 100)"], Raise TypeError)
  /\ snd (fst (script (sample_world client_with_canceled_order 0 false) empty_cache))
     = Crashed TypeError.
Proof.
  split; [| split; [reflexivity | split; [| vm_compute; reflexivity]]].
  - intros o. unfold order_row_of, filled_at_text. split.
    + intros [row H].
      destruct (py_float (Order.filled_qty o)) as [q |]; [| discriminate].
      destruct (py_float (Order.filled_avg_price o)) as [p |]; [| discriminate].
      destruct (Order.filled_at o) as [t |]; [| discriminate].
      repeat split; eexists; reflexivity.
    + intros ([q Hq] & [p Hp] & [t Ht]). rewrite Hq, Hp, Ht. cbn. eexists. reflexivity.
  - vm_compute. reflexivity.
Qed.

Lemma order_row_needs_a_fill_witness :
  exists row, order_row_of (filled_order "AAPL" 3 15) = Ok row.
Proof.
  apply (proj1 order_row_needs_a_fill (filled_order "AAPL" 3 15)).
  repeat split; eexists; vm_compute; reflexivity.
Defined.

(** * Further properties of the script *)

(** ** Amounts on display *)

(** An amount of [c] hundredths below ten to the fifteenth: its float,
    printed with two decimals, is the amount. *)
Lemma format_cents (comma neg : bool) (c : Z) :
  0 <= c < 10 ^ 15 ->
  format_f2 comma (round64 neg c 100) = show_cents comma neg c.
Proof.
  intros Hc.
  destruct (round64_error neg c 100 44) as (m & e & Er & He & Hm & Hs);
    [lia | lia | lia | change (2 ^ 44) with 17592186044416; lia |].
  destruct unit_facts as (HT & _ & Hu).
  rewrite Er. unfold format_f2. rewrite (cents_of_scaled m e He).
  set (S := scaled m e) in *. set (T := 2 ^ (- emin)) in *. set (u := 2 ^ (44 + 1020)) in *.
  f_equal. apply rne_unique; [lia |].
  replace (c * T - 100 * S) with (- (S * 100 - c * T)) by ring.
  rewrite Z.abs_opp. lia.
Qed.

Lemma py_float_signed_amount (v : pyval) (neg : bool) (c : Z) :
  0 <= c -> signed_amount v neg c -> py_float v = Ok (round64 neg c 100).
Proof.
  intros Hc H. destruct v as [| s |]; [contradiction | | contradiction].
  apply float_of_decimal; [exact Hc | lia | exact H].
Qed.

(** X1.  For a snapshot whose portfolio value and cash are amounts in
    whole cents below ten to the thirteenth dollars, "Portfolio Value"
    and "Cash Balance" show these amounts to the cent, with a dollar sign
    and commas: the passage through floats changes nothing. *)
Theorem money_metrics_show_the_amount (acct : Account.t) (pv cash : Z) :
  amount (Account.portfolio_value acct) pv ->
  amount (Account.cash acct) cash ->
  0 <= pv < 10 ^ 15 -> 0 <= cash < 10 ^ 15 ->
  portfolio_value_metric acct = Ok ("$" +:+ show_cents true false pv)
  /\ cash_metric acct = Ok ("$" +:+ show_cents true false cash).
Proof.
  intros Hpv Hcash Hb1 Hb2. unfold portfolio_value_metric, cash_metric, dollars.
  rewrite (py_float_amount _ pv) by (lia || assumption).
  rewrite (py_float_amount _ cash) by (lia || assumption).
  cbn [bind]. rewrite !format_cents by assumption. split; reflexivity.
Qed.

Lemma money_metrics_show_the_amount_witness :
  portfolio_value_metric sample_account = Ok ("$" +:+ show_cents true false 10532050)
  /\ cash_metric sample_account = Ok ("$" +:+ show_cents true false 2500000).
Proof.
  apply money_metrics_show_the_amount.
  - exists "105320.50", 10532050, (-2). repeat split.
  - exists "25000.00", 2500000, (-2). repeat split.
  - lia.
  - lia.
Defined.

(** X2.  In a position's row the cells "Market Value", "Cost Basis"
    and "Unrealized P/L" show the amounts sent, to the cent, a loss with
    its minus sign after the dollar sign; in an order's row
    "Avg. Fill Price" does, for a price in whole cents. *)
Theorem row_amounts_show_the_amount :
  (forall (p : Position.t) (row : position_row) (n1 n2 n3 : bool) (c1 c2 c3 : Z),
      position_row_of p = Ok row ->
      signed_amount (Position.market_value p) n1 c1 ->
      signed_amount (Position.cost_basis p) n2 c2 ->
      signed_amount (Position.unrealized_pl p) n3 c3 ->
      0 <= c1 < 10 ^ 15 -> 0 <= c2 < 10 ^ 15 -> 0 <= c3 < 10 ^ 15 ->
      pr_Market_Value row = "$" +:+ show_cents true n1 c1
      /\ pr_Cost_Basis row = "$" +:+ show_cents true n2 c2
      /\ pr_Unrealized_PL row = "$" +:+ show_cents true n3 c3)
  /\ (forall (o : Order.t) (row : order_row) (c : Z),
         order_row_of o = Ok row ->
         amount (Order.filled_avg_price o) c ->
         0 <= c < 10 ^ 15 ->
         or_Avg_Fill_Price row = "$" +:+ show_cents true false c).
Proof.
  split.
  - intros p row n1 n2 n3 c1 c2 c3 Hrow H1 H2 H3 Hb1 Hb2 Hb3.
    unfold position_row_of in Hrow.
    destruct (py_float (Position.qty p)) as [q |]; [| discriminate].
    rewrite (py_float_signed_amount _ n1 c1) in Hrow by (lia || assumption).
    rewrite (py_float_signed_amount _ n2 c2) in Hrow by (lia || assumption).
    rewrite (py_float_signed_amount _ n3 c3) in Hrow by (lia || assumption).
    cbn [bind] in Hrow.
    destruct (py_float (Position.unrealized_plpc p)) as [r |]; [| discriminate].
    cbn [bind] in Hrow. injection Hrow as <-.
    cbn [pr_Market_Value pr_Cost_Basis pr_Unrealized_PL]. unfold dollars.
    rewrite !format_cents by assumption. repeat split.
  - intros o row c Hrow Hc Hb. unfold order_row_of in Hrow.
    destruct (py_float (Order.filled_qty o)) as [q |]; [| discriminate].
    rewrite (py_float_amount _ c) in Hrow by (lia || assumption).
    cbn [bind] in Hrow.
    destruct (filled_at_text (Order.filled_at o)) as [t |]; [| discriminate].
    cbn [bind] in Hrow. injection Hrow as <-.
    cbn [or_Avg_Fill_Price]. unfold dollars. rewrite format_cents by assumption. reflexivity.
Qed.

Lemma row_amounts_show_the_amount_witness :
  (pr_Market_Value
     {| pr_Symbol := "TSLA"; pr_Qty := of_Z 3; pr_Side := "Long";
        pr_Market_Value := "$1,234,567.80"; pr_Cost_Basis := "$1,234,600.00";
        pr_Unrealized_PL := "$-32.20"; pr_Unrealized_PL_pct := "-0.01%" |}
   = "$" +:+ show_cents true false 123456780
   /\ pr_Cost_Basis
        {| pr_Symbol := "TSLA"; pr_Qty := of_Z 3; pr_Side := "Long";
           pr_Market_Value := "$1,234,567.80"; pr_Cost_Basis := "$1,234,600.00";
           pr_Unrealized_PL := "$-32.20"; pr_Unrealized_PL_pct := "-0.01%" |}
      = "$" +:+ show_cents true false 123460000
   /\ pr_Unrealized_PL
        {| pr_Symbol := "TSLA"; pr_Qty := of_Z 3; pr_Side := "Long";
           pr_Market_Value := "$1,234,567.80"; pr_Cost_Basis := "$1,234,600.00";
           pr_Unrealized_PL := "$-32.20"; pr_Unrealized_PL_pct := "-0.01%" |}
      = "$" +:+ show_cents true true 3220)
  /\ or_Avg_Fill_Price
       {| or_Symbol := "AAPL"; or_Qty := of_Z 10; or_Side := "Buy"; or_Type := "Market";
          or_Avg_Fill_Price := "$166.40"; or_Status := "Filled";
          or_Filled_At := "2024-01-03 15:30:00" |}
     = "$" +:+ show_cents true false 16640.
Proof.
  split.
  - apply (proj1 row_amounts_show_the_amount losing_position).
    + vm_compute. reflexivity.
    + exists "1234567.8", 12345678, (-1). repeat split.
    + exists "1234600", 1234600, 0. repeat split.
    + exists "32.20", 3220, (-2). repeat split.
    + lia.
    + lia.
    + lia.
  - apply (proj2 row_amounts_show_the_amount
             {| Order.symbol := "AAPL"; Order.filled_qty := VStr "10"; Order.side := "buy";
                Order.order_type := "market"; Order.filled_avg_price := VStr "166.4";
                Order.status := "filled";
                Order.filled_at :=
                  Some {| year := 2024; month := 1; day := 3; hour := 15; minute := 30;
                          second := 0 |} |}).
    + vm_compute. reflexivity.
    + exists "166.4", 1664, (-1). repeat split.
    + lia.
Defined.

(** ** What the conversions raise *)

Lemma float_of_string_raises (s : string) (e : exn) :
  float_of_string s = Raise e -> e = ValueError.
Proof.
  unfold float_of_string. destruct (read_sign (strip s)) as [neg body].
  destruct (read_decimal body) as [[D X] |]; [discriminate |].
  destruct (String.eqb (lower body) "inf" || String.eqb (lower body) "infinity");
    [discriminate |].
  destruct (String.eqb (lower body) "nan"); [discriminate |].
  intros H. injection H as <-. reflexivity.
Qed.

(** What [float(entity.field)] raises tells what is wrong with the
    field. *)
Lemma py_float_raises (v : pyval) (e : exn) :
  py_float v = Raise e ->
  match v with
  | VAbsent => e = AttributeError
  | VNone => e = TypeError
  | VStr _ => e = ValueError
  end.
Proof.
  destruct v as [| s |]; cbn.
  - intros H. injection H as <-. reflexivity.
  - exact (float_of_string_raises s e).
  - intros H. injection H as <-. reflexivity.
Qed.

Lemma py_float_raises_class (v : pyval) (e : exn) :
  py_float v = Raise e -> e = TypeError \/ e = ValueError \/ e = AttributeError.
Proof.
  intros H. apply py_float_raises in H. destruct v; auto.
Qed.

(** ** The KPI block *)



(** ** The loops over positions and orders *)

Lemma for_each_raises {A B : Type} (f : A -> result B) (l : list A) (e : exn) :
  for_each f l = Raise e
  <-> exists good x rest,
      l = good ++ x :: rest
      /\ Forall (fun y => exists r, f y = Ok r) good
      /\ f x = Raise e.
Proof.
  split.
  - induction l as [| y l IH]; cbn; [discriminate |].
    destruct (f y) as [r |] eqn:Hy; cbn.
    + destruct (for_each f l) as [rs |] eqn:Hl; cbn; [discriminate |].
      intros H. injection H as <-.
      destruct (IH eq_refl) as (good & x & rest & -> & Hgood & Hx).
      exists (y :: good), x, rest. repeat split; eauto.
    + intros H. injection H as <-. exists [], y, l. repeat split; auto.
  - intros (good & x & rest & -> & Hgood & Hx).
    induction Hgood as [| y good [r Hy] _ IH]; cbn.
    + rewrite Hx. reflexivity.
    + rewrite Hy. cbn. rewrite IH. reflexivity.
Qed.

Lemma position_row_keeps (p : Position.t) (r : position_row) :
  position_row_of p = Ok r ->
  pr_Symbol r = Position.symbol p /\ pr_Side r = title (Position.side p)
  /\ py_float (Position.qty p) = Ok (pr_Qty r).
Proof.
  unfold position_row_of.
  destruct (py_float (Position.qty p)) as [q |]; [| discriminate].
  destruct (py_float (Position.market_value p)); [| discriminate].
  destruct (py_float (Position.cost_basis p)); [| discriminate].
  destruct (py_float (Position.unrealized_pl p)); [| discriminate].
  destruct (py_float (Position.unrealized_plpc p)); [| discriminate].
  cbn. intros H. injection H as <-. repeat split.
Qed.

(** X4.  Each table is all or nothing.  The first position, or order,
    whose row cannot be built decides the exception, and then the
    section draws its header only: the rows built before it are dropped.
    When every row is built, the positions table has one row per
    position, in order, with the symbols as sent and the sides in title
    case. *)
Theorem tables_are_all_or_nothing :
  (forall (positions : list Position.t) (e : exn),
      positions_data positions = Raise e
      <-> exists good p rest,
          positions = good ++ p :: rest
          /\ Forall (fun q => exists r, position_row_of q = Ok r) good
          /\ position_row_of p = Raise e)
  /\ (forall (positions : list Position.t) (e : exn),
         positions_data positions = Raise e ->
         render_positions positions = ([EvHeader "Current Open Positions"], Raise e))
  /\ (forall (orders : list Order.t) (e : exn),
         orders_data orders = Raise e
         <-> exists good o rest,
             orders = good ++ o :: rest
             /\ Forall (fun q => exists r, order_row_of q = Ok r) good
             /\ order_row_of o = Raise e)
  /\ (forall (orders : list Order.t) (e : exn),
         orders_data orders = Raise e ->
         render_orders orders = ([EvHeader "Recent Closed Orders (Last 100)"], Raise e))
  /\ (forall (positions : list Position.t) (rows : list position_row),
         positions_data positions = Ok rows ->
         length rows = length positions
         /\ map pr_Symbol rows = map Position.symbol positions
         /\ map pr_Side rows = map (fun p => title (Position.side p)) positions).
Proof.
  repeat apply conj.
  - intros positions e. apply for_each_raises.
  - intros positions e H. unfold render_positions.
    destruct positions as [| p ps]; [discriminate |]. rewrite H. reflexivity.
  - intros orders e. apply for_each_raises.
  - intros orders e H. unfold render_orders.
    destruct orders as [| o os]; [discriminate |]. rewrite H. reflexivity.
  - intros positions rows H. apply for_each_Forall2 in H.
    induction H as [| p r positions rows Hr _ (IH1 & IH2 & IH3)]; cbn; [repeat split |].
    destruct (position_row_keeps p r Hr) as (-> & -> & _).
    rewrite IH1, IH2, IH3. repeat split.
Qed.

Lemma tables_are_all_or_nothing_witness :
  render_orders [filled_order "AAPL" 3 15; canceled_order; filled_order "MSFT" 2 10]
  = ([EvHeader "Recent Closed Orders (Last 100)"], Raise TypeError)
  /\ length [{| pr_Symbol := "AAPL"; pr_Qty := of_Z 10; pr_Side := "Long";
                pr_Market_Value := "$1,753.20"; pr_Cost_Basis := "$1,664.64";
                pr_Unrealized_PL := "$88.56"; pr_Unrealized_PL_pct := "5.32%" |}]
     = length [sample_position].
Proof.
  pose proof tables_are_all_or_nothing as (_ & _ & H3 & H4 & H5).
  split.
  - apply H4. apply H3.
    exists [filled_order "AAPL" 3 15], canceled_order, [filled_order "MSFT" 2 10].
    split; [reflexivity |]. split; [| reflexivity].
    constructor; [| constructor]. eexists. vm_compute. reflexivity.
  - apply (H5 [sample_position]). vm_compute. reflexivity.
Defined.

(** ** The history frame *)

Lemma zip_columns_raises (ts : list Z) (eq pl plp : list (option pyfloat)) (e : exn) :
  zip_columns ts eq pl plp = Raise e -> e = ValueError.
Proof.
  revert eq pl plp. induction ts as [| t ts IH]; intros [| x eq] [| y pl] [| z plp]; cbn;
    try discriminate; try (intros H; injection H as <-; reflexivity).
  destruct (zip_columns ts eq pl plp) as [rows |] eqn:E; cbn; [discriminate |].
  intros H. injection H as <-. exact (IH _ _ _ E).
Qed.

Lemma zip_columns_ok (ts : list Z) (eq pl plp : list (option pyfloat)) :
  length eq = length ts -> length pl = length ts -> length plp = length ts ->
  exists df, zip_columns ts eq pl plp = Ok df.
Proof.
  revert eq pl plp. induction ts as [| t ts IH]; intros [| x eq] [| y pl] [| z plp]; cbn;
    try discriminate; intros H1 H2 H3.
  - eexists. reflexivity.
  - destruct (IH eq pl plp) as [df ->]; [congruence | congruence | congruence |].
    cbn. eexists. reflexivity.
Qed.

Lemma zip_columns_columns (ts : list Z) (eq pl plp : list (option pyfloat)) (df : frame) :
  zip_columns ts eq pl plp = Ok df ->
  map hr_timestamp df = ts /\ map hr_equity df = eq
  /\ map hr_profit_loss df = pl /\ map hr_profit_loss_pct df = plp
  /\ map (fun r => (hr_timestamp r, hr_equity r)) df = combine ts eq.
Proof.
  revert eq pl plp df.
  induction ts as [| t ts IH]; intros [| x eq] [| y pl] [| z plp] df; cbn;
    try discriminate.
  - intros H. injection H as <-. repeat split.
  - destruct (zip_columns ts eq pl plp) as [rows |] eqn:E; cbn; [| discriminate].
    intros H. injection H as <-.
    destruct (IH _ _ _ _ E) as (H1 & H2 & H3 & H4 & H5). cbn.
    rewrite H1, H2, H3, H4, H5. repeat split.
Qed.

Lemma to_datetime_ok (df : frame) :
  forallb in_timestamp_range (map hr_timestamp df) = true -> to_datetime df = Ok df.
Proof.
  induction df as [| r rows IH]; cbn; [reflexivity |].
  rewrite andb_true_iff. intros [-> Hrows]. rewrite (IH Hrows). reflexivity.
Qed.

Lemma to_datetime_raises (df : frame) (e : exn) :
  to_datetime df = Raise e -> e = ValueError.
Proof.
  induction df as [| r rows IH]; cbn; [discriminate |].
  destruct (in_timestamp_range (hr_timestamp r)).
  - destruct (to_datetime rows) as [rows' | e']; cbn; [discriminate |].
    intros H. injection H as <-. apply IH. reflexivity.
  - intros H. injection H as <-. reflexivity.
Qed.

(** X5.  When the history arrives with four columns of one length,
    and timestamps that a [pd.Timestamp] can hold, the helper returns a
    frame with one row per timestamp that holds the columns as sent, in
    order, and the chart plots the equity column against the
    timestamps, or, for a history without points, the warning stands in
    for the chart.  Columns of different lengths make the frame
    construction raise [ValueError], which the helper does not catch. *)
Theorem history_frame_keeps_the_columns (a : Client.t) (h : History.t) :
  Client.get_portfolio_history a "1M" "1D" = Ok h ->
  (same_lengths h ->
   forallb in_timestamp_range (History.timestamp h) = true ->
   exists df,
     get_portfolio_history a = ([EvCall (GetPortfolioHistory "1M" "1D")], Ok df)
     /\ map hr_timestamp df = History.timestamp h
     /\ map hr_equity df = History.equity h
     /\ map hr_profit_loss df = History.profit_loss h
     /\ map hr_profit_loss_pct df = History.profit_loss_pct h
     /\ render_history df
        = ([EvHeader "Portfolio Value Over Time (30 Days)";
            match History.timestamp h with
            | [] => EvWarning "Could not load portfolio history chart."
            | _ :: _ =>
                EvChart "Portfolio Equity Over Time"
                        (combine (History.timestamp h) (History.equity h))
            end], Ok tt))
  /\ (~ same_lengths h ->
      get_portfolio_history a = ([EvCall (GetPortfolioHistory "1M" "1D")], Raise ValueError)).
Proof.
  intros Hh. unfold get_portfolio_history, try_except_APIError, request, bindM, lift, ret.
  rewrite Hh. unfold DataFrame. split.
  - intros (H1 & H2 & H3) Hrange.
    destruct (zip_columns_ok _ _ _ _ H1 H2 H3) as [df Hdf]. rewrite Hdf.
    destruct (zip_columns_columns _ _ _ _ _ Hdf) as (C1 & C2 & C3 & C4 & C5).
    rewrite <- C1 in Hrange. rewrite (to_datetime_ok df Hrange). cbn.
    exists df. repeat split; try assumption.
    unfold render_history. rewrite <- C5, <- C1. destruct df; reflexivity.
  - intros Hn.
    destruct (zip_columns (History.timestamp h) (History.equity h) (History.profit_loss h)
                          (History.profit_loss_pct h)) as [df | e] eqn:E; cbn.
    + exfalso. apply Hn.
      destruct (zip_columns_columns _ _ _ _ _ E) as (C1 & C2 & C3 & C4 & _).
      unfold same_lengths. rewrite <- C1, <- C2, <- C3, <- C4, !length_map. repeat split.
    + rewrite (zip_columns_raises _ _ _ _ _ E). reflexivity.
Qed.

Lemma history_frame_keeps_the_columns_witness :
  (exists df,
      get_portfolio_history healthy_client = ([EvCall (GetPortfolioHistory "1M" "1D")], Ok df)
      /\ map hr_timestamp df = History.timestamp sample_history
      /\ map hr_equity df = History.equity sample_history
      /\ map hr_profit_loss df = History.profit_loss sample_history
      /\ map hr_profit_loss_pct df = History.profit_loss_pct sample_history
      /\ render_history df
         = ([EvHeader "Portfolio Value Over Time (30 Days)";
             EvChart "Portfolio Equity Over Time"
                     (combine (History.timestamp sample_history)
                              (History.equity sample_history))], Ok tt))
  /\ get_portfolio_history client_with_ragged_history
     = ([EvCall (GetPortfolioHistory "1M" "1D")], Raise ValueError).
Proof.
  split.
  - apply (proj1 (history_frame_keeps_the_columns healthy_client sample_history eq_refl)).
    + repeat split.
    + reflexivity.
  - apply (proj2 (history_frame_keeps_the_columns client_with_ragged_history _ eq_refl)).
    intros (H & _). discriminate H.
Defined.

(** ** The shape of the dashboard *)

(** X11.  A dashboard that is drawn to the end consists of exactly
    twelve elements in a fixed order: the KPI header, the four columns
    and the four metrics, then three sections of a header and one
    element each: the chart or, for an empty frame, its warning; the
    positions table or, for no position, its message; the orders table
    or, for no order, its message. *)
Theorem finished_dashboard_shape (acct : Account.t) (positions : list Position.t)
        (orders : list Order.t) (history_df : frame) (total : pyfloat) (tr : list event) :
  dashboard (Some acct, positions, orders) history_df total = (tr, Ok tt) ->
  exists v1 v2 v3 v4 e1 e2 e3,
    tr = [EvHeader "Key Performance Indicators"; EvColumns 4;
          EvMetric "Portfolio Value" v1; EvMetric "Cash Balance" v2;
          EvMetric "Today's P/L" v3; EvMetric "Total P/L" v4;
          EvHeader "Portfolio Value Over Time (30 Days)"; e1;
          EvHeader "Current Open Positions"; e2;
          EvHeader "Recent Closed Orders (Last 100)"; e3]
    /\ e1 = match history_df with
            | [] => EvWarning "Could not load portfolio history chart."
            | _ :: _ =>
                EvChart "Portfolio Equity Over Time"
                        (map (fun r => (hr_timestamp r, hr_equity r)) history_df)
            end
    /\ match positions with
       | [] => e2 = EvInfo "No open positions."
       | _ :: _ => exists rows, positions_data positions = Ok rows
                                /\ e2 = EvDataframe (PositionsTable rows)
       end
    /\ match orders with
       | [] => e3 = EvInfo "No recent closed orders found."
       | _ :: _ => exists rows, orders_data orders = Ok rows
                                /\ e3 = EvDataframe (OrdersTable rows)
       end.
Proof.
  unfold dashboard, render_kpis, render_history, render_positions, render_orders.
  destruct (portfolio_value_metric acct) as [v1 |]; [| discriminate].
  destruct (cash_metric acct) as [v2 |]; [| discriminate].
  destruct (todays_pl_metric acct) as [v3 |]; [| discriminate].
  destruct (total_pl_metric acct total) as [v4 |]; [| discriminate].
  destruct history_df as [| r df];
    (destruct positions as [| p ps];
     [| destruct (positions_data (p :: ps)) as [prow |]; [| discriminate]]);
    (destruct orders as [| o os];
     [| destruct (orders_data (o :: os)) as [orow |]; [| discriminate]]).
  all: cbn; intros H; injection H as <-.
  all: do 7 eexists; split; [reflexivity |]; repeat split; eauto.
Qed.

Lemma finished_dashboard_shape_witness :
  exists v1 v2 v3 v4 e1 e2 e3,
    fst (dashboard (Some sample_account, [], []) [] (of_Z 100000))
    = [EvHeader "Key Performance Indicators"; EvColumns 4;
       EvMetric "Portfolio Value" v1; EvMetric "Cash Balance" v2;
       EvMetric "Today's P/L" v3; EvMetric "Total P/L" v4;
       EvHeader "Portfolio Value Over Time (30 Days)"; e1;
       EvHeader "Current Open Positions"; e2;
       EvHeader "Recent Closed Orders (Last 100)"; e3]
    /\ e1 = EvWarning "Could not load portfolio history chart."
    /\ e2 = EvInfo "No open positions."
    /\ e3 = EvInfo "No recent closed orders found.".
Proof.
  apply (finished_dashboard_shape sample_account [] [] [] (of_Z 100000)).
  vm_compute. reflexivity.
Defined.

(** ** Runs on a warm cache *)

Lemma calls_app (l1 l2 : list event) : calls (l1 ++ l2) = calls l1 ++ calls l2.
Proof.
  induction l1 as [| ev l1 IH]; cbn; [reflexivity |].
  destruct ev; cbn; rewrite ?IH; reflexivity.
Qed.

Lemma calls_of_errors (l : list event) : forallb is_error l = true -> calls l = [].
Proof.
  induction l as [| ev l IH]; cbn; [reflexivity |].
  rewrite andb_true_iff. intros [Hev Hl]. destruct ev; try discriminate. exact (IH Hl).
Qed.

Lemma elements_of_errors (l : list event) :
  forallb is_error l = true -> filter is_element l = l.
Proof.
  induction l as [| ev l IH]; cbn; [reflexivity |].
  rewrite andb_true_iff. intros [Hev Hl]. destruct ev; try discriminate.
  cbn. f_equal. exact (IH Hl).
Qed.

Lemma loads_account_data_ok (x y : account_data) : loads_account_data x = Ok y -> y = x.
Proof.
  rewrite loads_account_data_cases.
  destruct x as [[[acct |] [| p ps]] [| o os]]; intros H; try discriminate.
  injection H as <-. reflexivity.
Qed.

(** What a decorated helper returns is what its slot holds afterwards,
    and the elements it drew are those the slot will draw again. *)
Lemma cache_data_returns_the_stored {A : Type} (loads : A -> result A) (ttl t : Z)
      (slot slot' : option (entry A)) (f : M A) (tr : list event) (a : A) :
  (forall x y, loads x = Ok y -> y = x) ->
  slot_ok slot = true ->
  cache_data loads ttl t slot f = ((tr, Ok a), slot') ->
  exists en, slot' = Some en /\ value en = a /\ replay en = filter is_element tr.
Proof.
  intros Hloads Hok. unfold cache_data.
  assert (Hrun : match f with
                 | (tr0, Ok a0) =>
                     ((tr0, Ok a0),
                      Some {| stored_at := t; value := a0; replay := filter is_element tr0 |})
                 | (tr0, Raise e) => ((tr0, Raise e), None)
                 end = ((tr, Ok a), slot') ->
                 exists en, slot' = Some en /\ value en = a
                            /\ replay en = filter is_element tr).
  { destruct f as [tr' [a' | e]]; intros H; [| discriminate].
    injection H as <- <- <-. eexists. repeat split. }
  destruct slot as [en |]; [| exact Hrun].
  destruct (t <? stored_at en + ttl); [| exact Hrun].
  destruct (loads (value en)) as [a' | e] eqn:E; intros H; [| discriminate].
  injection H as <- <- <-. exists en. split; [reflexivity |]. split.
  - symmetry. exact (Hloads _ _ E).
  - symmetry. exact (elements_of_errors _ Hok).
Qed.

(** The account data a call hands over are those of a fetch that was
    answered, with the snapshot, or the substitute of a failed one. *)
Lemma account_data_returned (a : Client.t) (t : Z) (slot slot' : option (entry account_data))
      (tr : list event) (data : account_data) :
  cache_data loads_account_data 300 t slot (get_account_data a) = ((tr, Ok data), slot') ->
  (exists acct positions orders, data = (Some acct, positions, orders))
  \/ data = (None, [], []).
Proof.
  unfold cache_data.
  assert (Hrun : forall tr0 d, get_account_data a = (tr0, Ok d) ->
                               (exists acct positions orders, d = (Some acct, positions, orders))
                               \/ d = (None, [], [])).
  { unfold_helpers. case_requests a; cbn; intros tr0 d H; try discriminate;
      injection H as _ <-; eauto. }
  destruct slot as [en |].
  - destruct (t <? stored_at en + 300).
    + rewrite loads_account_data_cases.
      destruct (value en) as [[[acct |] [| p ps]] [| o os]]; intros H; try discriminate.
      injection H as _ <- _. right. reflexivity.
    + destruct (get_account_data a) as [tr0 [d | e]] eqn:E; intros H; [| discriminate].
      injection H as _ <- _. exact (Hrun _ _ eq_refl).
  - destruct (get_account_data a) as [tr0 [d | e]] eqn:E; intros H; [| discriminate].
    injection H as _ <- _. exact (Hrun _ _ eq_refl).
Qed.

(** The fetches that return leave both slots filled with what they
    returned and drew. *)
Lemma fetches_fill_the_cache (cfg : config) (w : world) (c c1 : cache) (tr : list event)
      (data : account_data) (df : frame) :
  cache_ok c = true ->
  fetches cfg w c = ((tr, Ok (data, df)), c1) ->
  exists en1 en2,
    c1 = {| account_slot := Some en1; history_slot := Some en2 |}
    /\ value en1 = data /\ value en2 = df
    /\ filter is_element tr
       = [EvPageConfig "Alpaca Trading Performance";
          EvTitle "📈 Alpaca Trading Performance Overview";
          EvButton "Refresh Data"] ++ replay en1 ++ replay en2
    /\ ((exists acct positions orders, data = (Some acct, positions, orders))
        \/ data = (None, [], [])).
Proof.
  intros Hc. unfold fetches.
  set (head := [EvPageConfig _; _; _]).
  assert (Hc0 : exists hd c0,
             (if refresh_clicked w then (head ++ [EvCacheClear], cache_clear c) else (head, c))
             = (hd, c0) /\ filter is_element hd = head /\ cache_ok c0 = true).
  { destruct (refresh_clicked w); eauto. }
  destruct Hc0 as (hd & c0 & -> & Hhd & Hc0).
  unfold cache_ok in Hc0. apply andb_true_iff in Hc0 as [Ha Hh].
  unfold cached_get_account_data.
  destruct (cache_data loads_account_data 300 (now w) (account_slot c0)
                       (get_account_data (api cfg)))
    as [[tr1 [d |]] slot1] eqn:E1; [| discriminate].
  unfold cached_get_portfolio_history. cbn [account_slot history_slot].
  destruct (cache_data loads_frame 3600 (now w) (history_slot c0)
                       (get_portfolio_history (api cfg)))
    as [[tr2 [f |]] slot2] eqn:E2; [| discriminate].
  intros H. injection H as <- <- <- <-.
  destruct (cache_data_returns_the_stored _ _ _ _ _ _ _ _ loads_account_data_ok Ha E1)
    as (en1 & -> & H1 & R1).
  assert (Hframe : forall x y : frame, loads_frame x = Ok y -> y = x)
    by (intros x y H; injection H as <-; reflexivity).
  destruct (cache_data_returns_the_stored _ _ _ _ _ _ _ _ Hframe Hh E2)
    as (en2 & -> & H2 & R2).
  exists en1, en2. repeat split; try assumption.
  - rewrite !filter_app, Hhd, R1, R2. reflexivity.
  - exact (account_data_returned _ _ _ _ _ _ E1).
Qed.

(** X6.  While both stored entries are younger than their time to
    live, a run that was not started by the refresh button sends no
    request, whatever the remote would answer by now, and leaves the
    cache as it is.  When the run that filled the cache had a failed
    account fetch, the run draws again exactly what that run drew, the
    two error messages of the helpers and the message of the account
    guard, and ends as it did.  When that run had its account fetch
    answered, the run cannot read the stored entities back: it ends
    with [RecursionError] below the button, where that run drew the
    dashboard.  Either way, so does every run until an entry expires or
    the button is pressed. *)
Theorem warm_cache_runs (cfg1 cfg2 : config) (w1 w2 : world) (c c1 : cache)
        (tr1 : list event) (data : account_data) (df : frame) :
  cache_ok c = true ->
  fetches cfg1 w1 c = ((tr1, Ok (data, df)), c1) ->
  refresh_clicked w2 = false ->
  fresh 300 (now w2) (account_slot c1) ->
  fresh 3600 (now w2) (history_slot c1) ->
  calls (fst (fst (page cfg2 w2 c1))) = []
  /\ snd (page cfg2 w2 c1) = c1
  /\ (data = (None, [], []) ->
      page cfg2 w2 c1 = ((filter is_element (fst (fst (page cfg1 w1 c))), Ok tt), c1)
      /\ snd (fst (page cfg1 w1 c)) = Ok tt)
  /\ (forall (acct : Account.t) (positions : list Position.t) (orders : list Order.t),
         data = (Some acct, positions, orders) ->
         page cfg2 w2 c1
         = (([EvPageConfig "Alpaca Trading Performance";
              EvTitle "📈 Alpaca Trading Performance Overview";
              EvButton "Refresh Data"], Raise RecursionError), c1))
  /\ ((exists acct positions orders, data = (Some acct, positions, orders))
      \/ data = (None, [], [])).
Proof.
  intros Hc Hf Hr Hfa Hfh.
  pose proof (fetches_trace cfg1 w1 c Hc) as [_ Hc1]. rewrite Hf in Hc1.
  cbn [fst snd] in Hc1.
  destruct (fetches_fill_the_cache _ _ _ _ _ _ _ Hc Hf)
    as (en1 & en2 & -> & Hv1 & Hv2 & Hel & Hcases).
  cbn [fresh account_slot history_slot] in Hfa, Hfh.
  unfold cache_ok in Hc1. cbn [slot_ok account_slot history_slot] in Hc1.
  apply andb_true_iff in Hc1 as [Hk1 Hk2].
  assert (Hf2 : fetches cfg2 w2 {| account_slot := Some en1; history_slot := Some en2 |}
                = (match loads_account_data data with
                   | Ok d =>
                       ([EvPageConfig "Alpaca Trading Performance";
                         EvTitle "📈 Alpaca Trading Performance Overview";
                         EvButton "Refresh Data"] ++ replay en1 ++ replay en2, Ok (d, df))
                   | Raise e =>
                       ([EvPageConfig "Alpaca Trading Performance";
                         EvTitle "📈 Alpaca Trading Performance Overview";
                         EvButton "Refresh Data"], Raise e)
                   end,
                   {| account_slot := Some en1; history_slot := Some en2 |})).
  { unfold fetches. rewrite Hr.
    unfold cached_get_account_data, cached_get_portfolio_history.
    cbn [account_slot history_slot].
    rewrite (cache_data_hit loads_account_data 300 (now w2) en1 _ Hfa), Hv1.
    destruct (loads_account_data data) as [d | e]; [| reflexivity].
    cbn [account_slot history_slot].
    rewrite (cache_data_hit loads_frame 3600 (now w2) en2 _ Hfh), Hv2. reflexivity. }
  assert (Hpage1 : page cfg1 w1 c
                   = ((tr1 ++ fst (dashboard data df (TOTAL_PORTFOLIO_CASH cfg1)),
                       snd (dashboard data df (TOTAL_PORTFOLIO_CASH cfg1))),
                      {| account_slot := Some en1; history_slot := Some en2 |})).
  { unfold page. rewrite Hf. unfold bindM. cbn [fst snd].
    destruct (dashboard data df (TOTAL_PORTFOLIO_CASH cfg1)) as [trd r]. reflexivity. }
  set (c1 := {| account_slot := Some en1; history_slot := Some en2 |}) in *.
  destruct Hcases as [(acct & positions & orders & ->) | ->].
  - assert (Hpage2 : page cfg2 w2 c1
                     = (([EvPageConfig "Alpaca Trading Performance";
                          EvTitle "📈 Alpaca Trading Performance Overview";
                          EvButton "Refresh Data"], Raise RecursionError), c1))
      by (unfold page; rewrite Hf2, loads_account_data_cases; reflexivity).
    rewrite Hpage2. cbn [fst snd].
    split; [reflexivity |]. split; [reflexivity |].
    split; [intros H; discriminate H |].
    split; [intros; reflexivity | left; eauto].
  - assert (Hpage2 : page cfg2 w2 c1
                     = ((([EvPageConfig "Alpaca Trading Performance";
                           EvTitle "📈 Alpaca Trading Performance Overview";
                           EvButton "Refresh Data"] ++ replay en1 ++ replay en2)
                         ++ [EvError no_account_message], Ok tt), c1))
      by (unfold page; rewrite Hf2, loads_account_data_cases; reflexivity).
    rewrite Hpage2, Hpage1. cbn [fst snd dashboard emit].
    split.
    { rewrite !calls_app, (calls_of_errors _ Hk1), (calls_of_errors _ Hk2). reflexivity. }
    split; [reflexivity |].
    split.
    { intros _. split; [| reflexivity]. rewrite filter_app, Hel. reflexivity. }
    split; [intros acct positions orders H; discriminate H | right; reflexivity].
Qed.

Lemma warm_cache_runs_witness :
  (calls (fst (fst (page (sample_config healthy_client)
                         (sample_world healthy_client 299 false) cache_after_failure))) = []
   /\ snd (page (sample_config healthy_client) (sample_world healthy_client 299 false)
                cache_after_failure)
      = cache_after_failure
   /\ page (sample_config healthy_client) (sample_world healthy_client 299 false)
           cache_after_failure
      = ((filter is_element
            (fst (fst (page (sample_config (failing_client (APIError "forbidden.")))
                            (sample_world (failing_client (APIError "forbidden.")) 0 false)
                            empty_cache))), Ok tt), cache_after_failure))
  /\ page (sample_config (failing_client (APIError "forbidden.")))
          (sample_world (failing_client (APIError "forbidden.")) 299 false)
          cache_after_first_run
     = (([EvPageConfig "Alpaca Trading Performance";
          EvTitle "📈 Alpaca Trading Performance Overview";
          EvButton "Refresh Data"], Raise RecursionError), cache_after_first_run).
Proof.
  split.
  - destruct (warm_cache_runs
           (sample_config (failing_client (APIError "forbidden."))) (sample_config healthy_client)
           (sample_world (failing_client (APIError "forbidden.")) 0 false)
           (sample_world healthy_client 299 false) empty_cache cache_after_failure
           [EvPageConfig "Alpaca Trading Performance";
            EvTitle "📈 Alpaca Trading Performance Overview";
            EvButton "Refresh Data";
            EvCall GetAccount;
            EvError "Error fetching data from Alpaca: forbidden.";
            EvCall (GetPortfolioHistory "1M" "1D");
            EvError "Error fetching portfolio history: forbidden."]
           (None, [], []) [])
      as (H1 & H2 & H3 & _).
    + reflexivity.
    + reflexivity.
    + reflexivity.
    + cbn. lia.
    + cbn. lia.
    + split; [exact H1 |]. split; [exact H2 |]. exact (proj1 (H3 eq_refl)).
  - destruct (warm_cache_runs
           (sample_config healthy_client) (sample_config (failing_client (APIError "forbidden.")))
           (sample_world healthy_client 0 false)
           (sample_world (failing_client (APIError "forbidden.")) 299 false)
           empty_cache cache_after_first_run
           [EvPageConfig "Alpaca Trading Performance";
            EvTitle "📈 Alpaca Trading Performance Overview";
            EvButton "Refresh Data";
            EvCall GetAccount; EvCall ListPositions; EvCall (ListOrders "closed" 100 "desc");
            EvCall (GetPortfolioHistory "1M" "1D")]
           (Some sample_account, [sample_position], [filled_order "AAPL" 3 15])
           sample_frame)
      as (_ & _ & _ & H4 & _).
    + reflexivity.
    + reflexivity.
    + reflexivity.
    + cbn. lia.
    + cbn. lia.
    + exact (H4 _ _ _ eq_refl).
Defined.

(** ** The requests of a run *)

Lemma get_account_data_calls (a : Client.t) :
  exists n, (1 <= n <= 3)%nat
            /\ calls (fst (get_account_data a)) = firstn n account_requests.
Proof.
  unfold_helpers. case_requests a; cbn.
  all: first [ exists 3%nat; split; [lia | reflexivity]
             | exists 2%nat; split; [lia | reflexivity]
             | exists 1%nat; split; [lia | reflexivity] ].
Qed.

Lemma get_portfolio_history_calls (a : Client.t) :
  calls (fst (get_portfolio_history a)) = [history_request].
Proof.
  unfold_helpers.
  destruct (Client.get_portfolio_history a "1M" "1D") as [h | [ ] ]; cbn; try reflexivity.
  destruct (DataFrame h) as [df | [ ] ]; try reflexivity.
  cbn. destruct (to_datetime df) as [df' | [ ] ]; reflexivity.
Qed.

Lemma cache_data_calls {A : Type} (loads : A -> result A) (ttl t : Z) (slot : option (entry A)) (f : M A) :
  slot_ok slot = true ->
  calls (fst (fst (cache_data loads ttl t slot f))) = calls (fst f)
  \/ calls (fst (fst (cache_data loads ttl t slot f))) = [].
Proof.
  intros Hs. unfold cache_data. destruct slot as [en |].
  - destruct (t <? stored_at en + ttl).
    + right. destruct (loads (value en)); [exact (calls_of_errors _ Hs) | reflexivity].
    + left. destruct f as [tr [a | e]]; reflexivity.
  - left. destruct f as [tr [a | e]]; reflexivity.
Qed.

Lemma render_kpis_calls (acct : Account.t) (total : pyfloat) :
  calls (fst (render_kpis acct total)) = [].
Proof.
  unfold render_kpis.
  destruct (portfolio_value_metric acct); [rewrite bindM_lift_ok | reflexivity].
  destruct (cash_metric acct); [rewrite bindM_lift_ok | reflexivity].
  destruct (todays_pl_metric acct); [rewrite bindM_lift_ok | reflexivity].
  destruct (total_pl_metric acct total); reflexivity.
Qed.

Lemma bindM_calls {A B : Type} (m : M A) (k : A -> M B) :
  calls (fst m) = [] -> (forall a, calls (fst (k a)) = []) ->
  calls (fst (bindM m k)) = [].
Proof.
  intros Hm Hk. unfold bindM. destruct m as [tr [a | e]]; cbn in *; [| exact Hm].
  specialize (Hk a). destruct (k a) as [tr' r]. cbn in *.
  rewrite calls_app, Hm, Hk. reflexivity.
Qed.

Lemma dashboard_calls (data : account_data) (df : frame) (total : pyfloat) :
  calls (fst (dashboard data df total)) = [].
Proof.
  destruct data as [[[acct |] positions] orders]; [| reflexivity].
  unfold dashboard. apply bindM_calls; [apply render_kpis_calls | intros _].
  apply bindM_calls; [destruct df; reflexivity | intros _].
  apply bindM_calls; [| intros _].
  - unfold render_positions. destruct positions as [| p ps]; [reflexivity |].
    destruct (positions_data (p :: ps)); reflexivity.
  - unfold render_orders. destruct orders as [| o os]; [reflexivity |].
    destruct (orders_data (o :: os)); reflexivity.
Qed.

Lemma fetches_calls (cfg : config) (w : world) (c : cache) :
  cache_ok c = true ->
  exists (n : nat) (b : bool),
    (n <= 3)%nat
    /\ calls (fst (fst (fetches cfg w c)))
       = firstn n account_requests ++ (if b then [history_request] else []).
Proof.
  intros Hc. unfold fetches.
  set (head := [EvPageConfig _; _; _]).
  assert (Hc0 : exists hd c0,
             (if refresh_clicked w then (head ++ [EvCacheClear], cache_clear c) else (head, c))
             = (hd, c0) /\ calls hd = [] /\ cache_ok c0 = true).
  { destruct (refresh_clicked w); eauto. }
  destruct Hc0 as (hd & c0 & -> & Hhd & Hc0).
  unfold cache_ok in Hc0. apply andb_true_iff in Hc0 as [Ha Hh].
  unfold cached_get_account_data, cached_get_portfolio_history.
  pose proof (cache_data_calls loads_account_data 300 (now w) _ (get_account_data (api cfg)) Ha) as H1.
  pose proof (cache_data_calls loads_frame 3600 (now w) _ (get_portfolio_history (api cfg)) Hh) as H2.
  destruct (get_account_data_calls (api cfg)) as (n & Hn & Hcalls).
  rewrite Hcalls in H1. rewrite get_portfolio_history_calls in H2.
  destruct (cache_data loads_account_data 300 (now w) (account_slot c0) (get_account_data (api cfg)))
    as [[tr1 r1] slot1]. cbn [fst snd] in H1. cbn [account_slot history_slot].
  assert (H1' : exists n1, (n1 <= 3)%nat /\ calls tr1 = firstn n1 account_requests).
  { destruct H1 as [H1 | H1]; [exists n | exists 0%nat]; split; (lia || exact H1). }
  destruct H1' as (n1 & Hn1 & Htr1).
  destruct r1 as [data | e].
  2:{ exists n1, false. split; [exact Hn1 |]. cbn [fst].
      rewrite calls_app, Hhd, Htr1, app_nil_r. reflexivity. }
  destruct (cache_data loads_frame 3600 (now w) (history_slot c0) (get_portfolio_history (api cfg)))
    as [[tr2 r2] slot2]. cbn [fst snd] in H2.
  assert (Hshape : calls (hd ++ tr1 ++ tr2)
                   = firstn n1 account_requests
                     ++ (if match calls tr2 with [] => false | _ => true end
                         then [history_request] else [])).
  { rewrite !calls_app, Hhd, Htr1. cbn [app]. f_equal.
    destruct H2 as [-> | ->]; reflexivity. }
  destruct r2 as [df | e]; cbn [fst]; eauto.
Qed.

(** X9.  A run sends at most four requests, each at most once and in
    the order of the script: the account, the positions, the closed
    orders, the history.  The account requests it sends are a beginning
    of these three, the first failure ending them; the dashboard itself
    sends none. *)
Theorem requests_of_a_run (w : world) (c : cache) :
  cache_ok c = true ->
  exists (n : nat) (b : bool),
    (n <= 3)%nat
    /\ calls (fst (fst (script w c)))
       = firstn n account_requests ++ (if b then [history_request] else []).
Proof.
  intros Hc. unfold script, startup.
  destruct (read_secrets w) as [cfg | e].
  2:{ exists 0%nat, false. split; [lia | reflexivity]. }
  destruct (fetches_calls cfg w c Hc) as (n & b & Hn & Hcalls).
  exists n, b. split; [exact Hn |].
  unfold page. destruct (fetches cfg w c) as [[tr [[data df] | e]] c1]; cbn [fst snd] in *.
  - unfold bindM. cbn [fst snd].
    pose proof (dashboard_calls data df (TOTAL_PORTFOLIO_CASH cfg)) as Hd.
    destruct (dashboard data df (TOTAL_PORTFOLIO_CASH cfg)) as [trd r]. cbn [fst] in *.
    rewrite !calls_app, Hd, app_nil_r. exact Hcalls.
  - cbn. rewrite ?calls_app. exact Hcalls.
Qed.

Lemma requests_of_a_run_witness :
  exists (n : nat) (b : bool),
    (n <= 3)%nat
    /\ calls (fst (fst (script (sample_world client_with_canceled_order 0 false) empty_cache)))
       = firstn n account_requests ++ (if b then [history_request] else []).
Proof.
  apply requests_of_a_run. reflexivity.
Defined.

(** X7.  When the account entry has expired and the history entry has
    not, as between five minutes and an hour after both were stored, a
    run without refresh asks for the account data again and does not ask
    for the history: the frame it works on is the stored one. *)
Theorem account_expires_before_history (cfg : config) (w : world) (c : cache)
        (en : entry frame) :
  refresh_clicked w = false ->
  stale 300 (now w) (account_slot c) ->
  history_slot c = Some en ->
  now w < stored_at en + 3600 ->
  forallb is_error (replay en) = true ->
  (exists n, (1 <= n <= 3)%nat
             /\ calls (fst (fst (fetches cfg w c))) = firstn n account_requests)
  /\ (forall (tr : list event) (data : account_data) (df : frame) (c' : cache),
         fetches cfg w c = ((tr, Ok (data, df)), c') ->
         df = value en /\ history_slot c' = Some en
         /\ exists tra, get_account_data (api cfg) = (tra, Ok data)).
Proof.
  intros Hr Hs Hh Hfresh Hrep. unfold fetches. rewrite Hr.
  unfold cached_get_account_data, cached_get_portfolio_history.
  rewrite (cache_data_miss loads_account_data 300 (now w) _ (get_account_data (api cfg)) Hs).
  destruct (get_account_data_calls (api cfg)) as (n & Hn & Hcalls).
  destruct (get_account_data (api cfg)) as [tra [data | e]]; cbn [fst snd] in *.
  - cbn [account_slot history_slot]. rewrite Hh.
    rewrite (cache_data_hit_frame 3600 (now w) en _ Hfresh). split.
    + exists n. split; [exact Hn |]. cbn [fst].
      change (calls ([EvPageConfig "Alpaca Trading Performance";
                      EvTitle "📈 Alpaca Trading Performance Overview";
                      EvButton "Refresh Data"] ++ tra ++ replay en))
        with (calls (tra ++ replay en)).
      rewrite calls_app, (calls_of_errors _ Hrep), app_nil_r. exact Hcalls.
    + intros tr d df c' H. injection H as _ <- <- <-. cbn. eauto.
  - split.
    + exists n. split; [exact Hn |]. cbn [fst]. exact Hcalls.
    + intros tr d df c' H. discriminate H.
Qed.

Lemma account_expires_before_history_witness :
  (exists n, (1 <= n <= 3)%nat
             /\ calls (fst (fst (fetches (sample_config healthy_client)
                                         (sample_world healthy_client 600 false)
                                         cache_after_success)))
                = firstn n account_requests)
  /\ (forall (tr : list event) (data : account_data) (df : frame) (c' : cache),
         fetches (sample_config healthy_client) (sample_world healthy_client 600 false)
                 cache_after_success = ((tr, Ok (data, df)), c') ->
         df = [] /\ history_slot c' = Some {| stored_at := 0; value := []; replay := [] |}
         /\ exists tra, get_account_data healthy_client = (tra, Ok data)).
Proof.
  apply (account_expires_before_history (sample_config healthy_client)
           (sample_world healthy_client 600 false) cache_after_success
           {| stored_at := 0; value := []; replay := [] |}).
  - reflexivity.
  - cbn. lia.
  - reflexivity.
  - cbn. lia.
  - reflexivity.
Defined.

(** ** Expiry and refresh *)

(** X16.  A call of the account helper that finds its entry 300
    seconds old or older runs the helper, which starts by requesting the
    account; so does the history helper after 3600 seconds, with its
    request.  Before that, the stored frame answers the history call,
    and the stored substitute of a failed account fetch answers the
    account call: the same value, the stored messages drawn again, no
    request, the entry untouched.  A run started by "Refresh Data"
    clears both caches whatever their age: it behaves as on an empty
    cache, requests the account and, when the fetches return, has
    requested the history. *)
Theorem expiry_and_refresh_fetch_again :
  (forall (a : Client.t) (c : cache) (t : Z),
      stale 300 t (account_slot c) ->
      fst (cached_get_account_data a t c) = get_account_data a
      /\ exists tr r, get_account_data a = (EvCall GetAccount :: tr, r))
  /\ (forall (a : Client.t) (c : cache) (t : Z),
         stale 3600 t (history_slot c) ->
         fst (cached_get_portfolio_history a t c) = get_portfolio_history a
         /\ exists tr r,
             get_portfolio_history a = (EvCall (GetPortfolioHistory "1M" "1D") :: tr, r))
  /\ (forall (a1 a2 : Client.t) (c c1 : cache) (t1 t2 : Z) (tr1 : list event) (df : frame),
         stale 3600 t1 (history_slot c) ->
         cached_get_portfolio_history a1 t1 c = ((tr1, Ok df), c1) ->
         t1 <= t2 < t1 + 3600 ->
         cached_get_portfolio_history a2 t2 c1 = ((filter is_element tr1, Ok df), c1)
         /\ existsb is_call (filter is_element tr1) = false)
  /\ (forall (a1 a2 : Client.t) (c c1 : cache) (t1 t2 : Z) (tr1 : list event),
         stale 300 t1 (account_slot c) ->
         cached_get_account_data a1 t1 c = ((tr1, Ok (None, [], [])), c1) ->
         t1 <= t2 < t1 + 300 ->
         cached_get_account_data a2 t2 c1 = ((filter is_element tr1, Ok (None, [], [])), c1)
         /\ existsb is_call (filter is_element tr1) = false)
  /\ (forall c : cache, cache_clear c = empty_cache)
  /\ (forall (cfg : config) (w : world) (c : cache),
         refresh_clicked w = true ->
         fetches cfg w c = fetches cfg w empty_cache
         /\ In EvCacheClear (fst (fst (fetches cfg w c)))
         /\ In (EvCall GetAccount) (fst (fst (fetches cfg w c)))
         /\ forall tr v c', fetches cfg w c = ((tr, Ok v), c') ->
                            In (EvCall (GetPortfolioHistory "1M" "1D")) tr).
Proof.
  repeat apply conj.
  - intros a c t Hs. split; [| apply get_account_data_head].
    unfold cached_get_account_data. rewrite (cache_data_miss _ _ _ _ _ Hs).
    destruct (get_account_data a) as [tr [d | e]]; reflexivity.
  - intros a c t Hs. split; [| apply get_portfolio_history_head].
    unfold cached_get_portfolio_history. rewrite (cache_data_miss _ _ _ _ _ Hs).
    destruct (get_portfolio_history a) as [tr [d | e]]; reflexivity.
  - intros a1 a2 c c1 t1 t2 tr1 df Hs H Ht. split; [| apply replay_has_no_call].
    unfold cached_get_portfolio_history in *.
    destruct (cache_data loads_frame 3600 t1 (history_slot c) (get_portfolio_history a1))
      as [m slot1] eqn:E1.
    injection H as -> <-. cbn [account_slot history_slot].
    rewrite (cache_data_second_call loads_frame 3600 t1 t2 _ _ _ (get_portfolio_history a2)
               _ _ Hs E1); [| lia].
    reflexivity.
  - intros a1 a2 c c1 t1 t2 tr1 Hs H Ht. split; [| apply replay_has_no_call].
    unfold cached_get_account_data in *.
    destruct (cache_data loads_account_data 300 t1 (account_slot c) (get_account_data a1))
      as [m slot1] eqn:E1.
    injection H as -> <-. cbn [account_slot history_slot].
    rewrite (cache_data_second_call loads_account_data 300 t1 t2 _ _ _ (get_account_data a2)
               _ _ Hs E1); [| lia].
    reflexivity.
  - reflexivity.
  - intros cfg w c Hr.
    assert (Heq : fetches cfg w c = fetches cfg w empty_cache)
      by (unfold fetches; rewrite Hr; reflexivity).
    rewrite Heq. split; [reflexivity |].
    unfold fetches. rewrite Hr.
    unfold cached_get_account_data, cached_get_portfolio_history, cache_clear, empty_cache.
    cbn [account_slot history_slot]. unfold cache_data at 1.
    destruct (get_account_data_head (api cfg)) as (tr1 & r1 & ->).
    destruct (get_portfolio_history_head (api cfg)) as (tr2 & r2 & E2).
    destruct r1 as [data | e].
    + unfold cache_data. rewrite E2. destruct r2 as [df | e]; cbn.
      all: split; [auto 10 |]; split; [auto 10 |].
      all: intros tr v c' H; try discriminate; injection H as <- _ _.
      all: cbn; do 5 right; apply in_or_app; right; left; reflexivity.
    + cbn. split; [auto 10 |]. split; [auto 10 | discriminate].
Qed.

Lemma expiry_and_refresh_fetch_again_witness :
  fst (cached_get_account_data healthy_client 300 cache_after_failure)
  = get_account_data healthy_client
  /\ cached_get_portfolio_history (failing_client (OtherError "ConnectionError")) 3599
       {| account_slot := None;
          history_slot := Some {| stored_at := 0; value := sample_frame; replay := [] |} |}
     = ((filter is_element [EvCall (GetPortfolioHistory "1M" "1D")], Ok sample_frame),
        {| account_slot := None;
           history_slot := Some {| stored_at := 0; value := sample_frame; replay := [] |} |})
  /\ cached_get_account_data healthy_client 299
       {| account_slot :=
            Some {| stored_at := 0; value := (None, [], []);
                    replay := [EvError "Error fetching data from Alpaca: forbidden."] |};
          history_slot := None |}
     = ((filter is_element
           [EvCall GetAccount; EvError "Error fetching data from Alpaca: forbidden."],
         Ok (None, [], [])),
        {| account_slot :=
             Some {| stored_at := 0; value := (None, [], []);
                     replay := [EvError "Error fetching data from Alpaca: forbidden."] |};
           history_slot := None |})
  /\ In (EvCall GetAccount)
        (fst (fst (fetches (sample_config healthy_client) (sample_world healthy_client 10 true)
                           cache_after_first_run))).
Proof.
  pose proof expiry_and_refresh_fetch_again as (H1 & _ & H3 & H4 & _ & H6).
  split; [| split; [| split]].
  - apply H1. cbn. lia.
  - apply (H3 healthy_client (failing_client (OtherError "ConnectionError")) empty_cache _ 0 3599).
    + exact I.
    + reflexivity.
    + lia.
  - apply (H4 (failing_client (APIError "forbidden.")) healthy_client empty_cache _ 0 299).
    + exact I.
    + reflexivity.
    + lia.
  - apply H6. reflexivity.
Defined.

(** ** What ends a run *)

Lemma position_row_raises (p : Position.t) (e : exn) :
  position_row_of p = Raise e -> e = TypeError \/ e = ValueError \/ e = AttributeError.
Proof.
  unfold position_row_of.
  destruct (py_float (Position.qty p)) eqn:E1; cbn;
    [| intros H; injection H as <-; eauto using py_float_raises_class].
  destruct (py_float (Position.market_value p)) eqn:E2; cbn;
    [| intros H; injection H as <-; eauto using py_float_raises_class].
  destruct (py_float (Position.cost_basis p)) eqn:E3; cbn;
    [| intros H; injection H as <-; eauto using py_float_raises_class].
  destruct (py_float (Position.unrealized_pl p)) eqn:E4; cbn;
    [| intros H; injection H as <-; eauto using py_float_raises_class].
  destruct (py_float (Position.unrealized_plpc p)) eqn:E5; cbn;
    [discriminate | intros H; injection H as <-; eauto using py_float_raises_class].
Qed.

Lemma order_row_raises (o : Order.t) (e : exn) :
  order_row_of o = Raise e -> e = TypeError \/ e = ValueError \/ e = AttributeError.
Proof.
  unfold order_row_of, filled_at_text.
  destruct (py_float (Order.filled_qty o)) eqn:E1; cbn;
    [| intros H; injection H as <-; exact (py_float_raises_class _ _ E1)].
  destruct (py_float (Order.filled_avg_price o)) eqn:E2; cbn;
    [| intros H; injection H as <-; exact (py_float_raises_class _ _ E2)].
  destruct (Order.filled_at o); cbn; [discriminate |].
  intros H. injection H as <-. auto.
Qed.

Lemma helpers_catch_api_errors (a : Client.t) (msg : string) :
  snd (get_account_data a) <> Raise (APIError msg)
  /\ snd (get_portfolio_history a) <> Raise (APIError msg).
Proof.
  split.
  - unfold_helpers. case_requests a; cbn; discriminate.
  - unfold_helpers.
    destruct (Client.get_portfolio_history a "1M" "1D") as [h | [ ] ]; cbn; try discriminate.
    destruct (DataFrame h) as [df | e] eqn:E; cbn.
    + destruct (to_datetime df) as [df' | e] eqn:E'; cbn; [discriminate |].
      rewrite (to_datetime_raises _ _ E'). discriminate.
    + rewrite (zip_columns_raises _ _ _ _ _ E). discriminate.
Qed.

(** An exception of a decorated helper is one of the helper or one of
    reading the stored value back. *)
Lemma cache_data_raises {A : Type} (loads : A -> result A) (ttl t : Z)
      (slot : option (entry A)) (f : M A) (e : exn) :
  snd (fst (cache_data loads ttl t slot f)) = Raise e ->
  snd f = Raise e \/ exists x, loads x = Raise e.
Proof.
  unfold cache_data. destruct slot as [en |].
  - destruct (t <? stored_at en + ttl).
    + destruct (loads (value en)) as [a | e'] eqn:E; [discriminate |].
      intros H. right. exists (value en). rewrite E. exact H.
    + destruct f as [tr [a | e']]; [discriminate | left; assumption].
  - destruct f as [tr [a | e']]; [discriminate | left; assumption].
Qed.

Lemma loads_never_raise_api_errors (msg : string) :
  (forall x, loads_account_data x <> Raise (APIError msg))
  /\ (forall x, loads_frame x <> Raise (APIError msg)).
Proof.
  split; intros x; [| discriminate].
  rewrite loads_account_data_cases.
  destruct x as [[[acct |] [| p ps]] [| o os]]; discriminate.
Qed.

Lemma dashboard_raises (data : account_data) (df : frame) (total : pyfloat) (e : exn) :
  snd (dashboard data df total) = Raise e ->
  e = TypeError \/ e = ValueError \/ e = AttributeError.
Proof.
  destruct data as [[[acct |] positions] orders]; [| discriminate].
  unfold dashboard, render_kpis, portfolio_value_metric, cash_metric, todays_pl_metric,
    total_pl_metric.
  destruct (py_float (Account.portfolio_value acct)) eqn:E1; cbn;
    [| intros H; injection H as <-; exact (py_float_raises_class _ _ E1)].
  destruct (py_float (Account.cash acct)) eqn:E2; cbn;
    [| intros H; injection H as <-; exact (py_float_raises_class _ _ E2)].
  destruct (py_float (Account.equity acct)) eqn:E3; cbn;
    [| intros H; injection H as <-; exact (py_float_raises_class _ _ E3)].
  destruct (py_float (Account.last_equity acct)) eqn:E4; cbn;
    [| intros H; injection H as <-; exact (py_float_raises_class _ _ E4)].
  assert (Hp : forall e', positions_data positions = Raise e' ->
                          e' = TypeError \/ e' = ValueError \/ e' = AttributeError).
  { intros e' H. apply for_each_raises in H as (_ & p & _ & _ & _ & H).
    exact (position_row_raises p e' H). }
  assert (Ho : forall e', orders_data orders = Raise e' ->
                          e' = TypeError \/ e' = ValueError \/ e' = AttributeError).
  { intros e' H. apply for_each_raises in H as (_ & o & _ & _ & _ & H).
    exact (order_row_raises o e' H). }
  unfold render_history, render_positions, render_orders.
  destruct df as [| r0 df];
    (destruct positions as [| p ps];
     [| destruct (positions_data (p :: ps)) as [prow | ep] eqn:Ep]);
    (destruct orders as [| o os];
     [| destruct (orders_data (o :: os)) as [orow | eo] eqn:Eo]);
    cbn; intros H; try discriminate; injection H as <-; eauto.
Qed.

(** X10.  An [APIError] never ends a run: the helpers catch it.  The
    connection never ends one either: whatever it raises becomes the
    fatal message.  And an exception raised while the dashboard is drawn
    is a [TypeError], a [ValueError] or an [AttributeError], from a
    field that is missing or is no number. *)
Theorem api_errors_never_escape :
  (forall (w : world) (c : cache) (msg : string),
      snd (fst (script w c)) <> Crashed (APIError msg))
  /\ (forall (w : world) (e : exn), snd (startup w) <> Crashed e)
  /\ (forall (data : account_data) (df : frame) (total : pyfloat) (e : exn),
         snd (dashboard data df total) = Raise e ->
         e = TypeError \/ e = ValueError \/ e = AttributeError).
Proof.
  split; [| split; [| exact dashboard_raises]].
  - intros w c msg. unfold script.
    destruct (startup w) as [tr0 [cfg | | e]] eqn:Es.
    + unfold page, fetches.
      destruct (if refresh_clicked w then _ else _) as [hd c0].
      unfold cached_get_account_data, cached_get_portfolio_history.
      pose proof (cache_data_raises loads_account_data 300 (now w) (account_slot c0)
                    (get_account_data (api cfg)) (APIError msg)) as H1.
      pose proof (cache_data_raises loads_frame 3600 (now w) (history_slot c0)
                    (get_portfolio_history (api cfg)) (APIError msg)) as H2.
      destruct (helpers_catch_api_errors (api cfg) msg) as [N1 N2].
      destruct (loads_never_raise_api_errors msg) as [L1 L2].
      destruct (cache_data loads_account_data 300 (now w) (account_slot c0) (get_account_data (api cfg)))
        as [[tr1 [data | e1]] slot1]; cbn [fst snd] in *.
      2:{ cbn. intros H. injection H as ->.
          destruct (H1 eq_refl) as [H | [x H]]; [exact (N1 H) | exact (L1 x H)]. }
      cbn [account_slot history_slot].
      destruct (cache_data loads_frame 3600 (now w) (history_slot c0) (get_portfolio_history (api cfg)))
        as [[tr2 [df | e2]] slot2]; cbn [fst snd] in *.
      2:{ cbn. intros H. injection H as ->.
          destruct (H2 eq_refl) as [H | [x H]]; [exact (N2 H) | exact (L2 x H)]. }
      unfold bindM. cbn [fst snd].
      pose proof (dashboard_raises data df (TOTAL_PORTFOLIO_CASH cfg) (APIError msg)) as Hd.
      destruct (dashboard data df (TOTAL_PORTFOLIO_CASH cfg)) as [trd [u | e3]];
        cbn [fst snd] in *; [discriminate |].
      intros H. injection H as ->.
      destruct (Hd eq_refl) as [H | [H | H]]; discriminate H.
    + discriminate.
    + unfold startup in Es. destruct (read_secrets w); discriminate Es.
  - intros w e. unfold startup. destruct (read_secrets w); discriminate.
Qed.

Lemma api_errors_never_escape_witness :
  TypeError = TypeError \/ TypeError = ValueError \/ TypeError = AttributeError.
Proof.
  apply (proj2 (proj2 api_errors_never_escape)
           (Some sample_account, [], [canceled_order]) [] (of_Z 100000)).
  vm_compute. reflexivity.
Defined.

(** ** The connection *)

(** X8.  A run that gets past the connection works with exactly what
    the secrets say: the two keys as stored, the stored [base_url] or,
    without one, the paper-trading endpoint, the float of the stored
    baseline, and the client the constructor returned for these; it has
    logged one line and drawn nothing.  A constructor that raises,
    whatever it raises, stops the run with the fatal message. *)
Theorem connection_uses_the_secrets (w : world) :
  (forall cfg : config,
      snd (startup w) = Finished cfg ->
      secret w "alpaca" "api_key" = Some (API_KEY cfg)
      /\ secret w "alpaca" "secret_key" = Some (API_SECRET cfg)
      /\ BASE_URL cfg = configured_url w
      /\ (exists v, secret w "account" "total_portfolio_cash" = Some v
                    /\ toml_float v = Ok (TOTAL_PORTFOLIO_CASH cfg))
      /\ REST w (API_KEY cfg) (API_SECRET cfg) (configured_url w) = Ok (api cfg)
      /\ fst (startup w) = [EvLog "✅ Alpaca API connection successful."])
  /\ (forall (key sk : toml) (e : exn),
         secret w "alpaca" "api_key" = Some key ->
         secret w "alpaca" "secret_key" = Some sk ->
         REST w key sk (configured_url w) = Raise e ->
         startup w = ([EvError fatal_message], Stopped)).
Proof.
  unfold startup, read_secrets, configured_url, secret, subscript, get_default. split.
  - intros cfg.
    destruct (secrets w !! "alpaca") as [alpaca |]; cbn [bind]; [| discriminate].
    destruct (alpaca !! "api_key") as [key |]; cbn [bind]; [| discriminate].
    destruct (alpaca !! "secret_key") as [sk |]; cbn [bind]; [| discriminate].
    destruct (secrets w !! "account") as [account |]; cbn [bind]; [| discriminate].
    destruct (account !! "total_portfolio_cash") as [total |]; cbn [bind]; [| discriminate].
    destruct (toml_float total) as [f |] eqn:Ef; cbn [bind]; [| discriminate].
    destruct (REST w key sk _) as [a |] eqn:Er; cbn [bind]; [| discriminate].
    cbn. intros H. injection H as <-. cbn. repeat split; eauto.
  - intros key sk e.
    destruct (secrets w !! "alpaca") as [alpaca |]; cbn [bind]; [| discriminate].
    intros -> -> Hr. cbn [bind].
    destruct (secrets w !! "account") as [account |]; cbn [bind]; [| reflexivity].
    destruct (account !! "total_portfolio_cash") as [total |]; cbn [bind]; [| reflexivity].
    destruct (toml_float total) as [f |]; cbn [bind]; [| reflexivity].
    rewrite Hr. reflexivity.
Qed.

Lemma connection_uses_the_secrets_witness :
  startup world_without_remote = ([EvError fatal_message], Stopped)
  /\ BASE_URL (sample_config healthy_client) = configured_url (world_with sample_secrets).
Proof.
  split.
  - apply (proj2 (connection_uses_the_secrets world_without_remote)
             (TStr "PK0000") (TStr "s3cr3t") ValueError); reflexivity.
  - apply (proj1 (connection_uses_the_secrets (world_with sample_secrets))
             {| API_KEY := TStr "PK0000"; API_SECRET := TStr "s3cr3t";
                BASE_URL := TStr paper_url;
                TOTAL_PORTFOLIO_CASH := FFin false 6871947673600000 (-36);
                api := healthy_client |}).
    vm_compute. reflexivity.
Defined.

(** ** Amounts and their notation *)

(** X13.  How an amount is written does not matter: two texts that
    denote the same decimal number, with or without trailing zeros or an
    exponent, convert to the same float, and a baseline stored as a TOML
    integer converts to the same float as the text of that integer. *)
Theorem amounts_do_not_depend_on_notation :
  (forall (s1 s2 : string) (neg : bool) (c1 c2 k1 k2 : Z),
      0 <= c1 -> 0 <= c2 -> 0 < k1 -> 0 < k2 ->
      reads_decimal s1 neg c1 k1 ->
      reads_decimal s2 neg c2 k2 ->
      c1 * k2 = c2 * k1 ->
      float_of_string s1 = float_of_string s2)
  /\ (forall (z : Z) (s : string),
         0 <= z < 2 ^ 52 ->
         reads_decimal s false z 1 ->
         toml_float (TInt z) = toml_float (TStr s)).
Proof.
  split.
  - intros s1 s2 neg c1 c2 k1 k2 Hc1 Hc2 Hk1 Hk2 H1 H2 Heq.
    rewrite (float_of_decimal s1 neg c1 k1 Hc1 Hk1 H1).
    rewrite (float_of_decimal s2 neg c2 k2 Hc2 Hk2 H2).
    f_equal. apply round64_ratio; assumption.
  - intros z s Hz Hs. cbn [toml_float].
    rewrite (float_of_decimal s false z 1) by (lia || exact Hs).
    unfold of_Z. destruct (Z.ltb_spec z 0) as [Hneg | _]; [lia |].
    rewrite (Z.abs_eq z) by lia.
    destruct (round64_error false z 1 52) as (m & e & -> & _); [lia | lia | lia | lia |].
    reflexivity.
Qed.

Lemma amounts_do_not_depend_on_notation_witness :
  float_of_string "105320.5" = float_of_string "1.0532050e5"
  /\ toml_float (TInt 100000) = toml_float (TStr "100000.00").
Proof.
  split.
  - apply (proj1 amounts_do_not_depend_on_notation _ _ false 1053205 10532050 10 100).
    + lia.
    + lia.
    + lia.
    + lia.
    + exists "105320.5", 1053205, (-1). repeat split.
    + exists "1.0532050e5", 10532050, (-2). repeat split.
    + reflexivity.
  - apply (proj2 amounts_do_not_depend_on_notation).
    + lia.
    + exists "100000.00", 10000000, (-2). repeat split.
Defined.

(** ** Quantities *)

Lemma rne_one (x : Z) : rne x 1 = x.
Proof.
  unfold rne. rewrite Z.div_1_r, Z.mod_1_r. reflexivity.
Qed.

(** A whole number below [2^53] is a float: rounding leaves it as it
    is. *)
Lemma round64_whole (neg : bool) (n : Z) :
  0 <= n < 2 ^ 53 ->
  exists m e,
    round64 neg n 1 = FFin neg m e /\ emin <= e /\ scaled m e = n * 2 ^ (- emin).
Proof.
  intros Hn. unfold round64.
  destruct (Z.eqb_spec n 0) as [-> | Hn0].
  - exists 0, emin. repeat split; reflexivity || lia.
  - destruct (ilog2_ratio_spec n 1 ltac:(lia) ltac:(lia)) as [Hlo Hhi].
    pose proof (ilog2_ratio_below n 1 53 ltac:(lia) ltac:(lia) ltac:(lia) ltac:(lia)) as Hl53.
    set (l := ilog2_ratio n 1) in *.
    assert (Hl0 : 0 <= l).
    { destruct (Z.lt_ge_cases l 0) as [Hneg | Hpos]; [| exact Hpos].
      assert (H0 : pow2_le n 1 0 = true).
      { apply (pow2_le_shift n 1 0 0); [lia | lia |]. cbn. lia. }
      rewrite (pow2_le_antitone n 1 0 (l + 1)) in Hhi; [discriminate | lia | lia | exact H0]. }
    assert (Hup : n < 2 ^ (l + 1)).
    { destruct (Z.lt_ge_cases n (2 ^ (l + 1))) as [Hlt | Hge]; [exact Hlt |].
      assert (pow2_le n 1 (l + 1) = true); [| congruence].
      apply (pow2_le_shift n 1 (l + 1) 0); [lia | lia |].
      rewrite Z.add_0_l, Z.pow_0_r. lia. }
    unfold prec, emin in *.
    rewrite (Z.max_l (l - (53 - 1)) (-1074)) by lia.
    unfold scaled_rne.
    rewrite (Z.max_l 0 (l - (53 - 1))), (Z.max_r 0 (- (l - (53 - 1)))) by lia.
    rewrite Z.pow_0_r, Z.mul_1_l, rne_one.
    replace (- (l - (53 - 1))) with (52 - l) by ring.
    pose proof (pow2_pos (52 - l) ltac:(lia)) as HX.
    assert (Hm : n * 2 ^ (52 - l) < 2 ^ 53).
    { replace 53 with ((l + 1) + (52 - l)) at 1 by ring.
      rewrite (pow2_split (l + 1) (52 - l)) by lia.
      apply Z.mul_lt_mono_pos_r; assumption. }
    destruct (Z.eqb_spec (n * 2 ^ (52 - l)) (2 ^ 53)) as [E | _]; [lia |].
    destruct (Z.ltb_spec (emax - 53) (l - (53 - 1))) as [Ho | _];
      [unfold emax in Ho; lia |].
    exists (n * 2 ^ (52 - l)), (l - (53 - 1)). split; [reflexivity |]. split; [lia |].
    unfold scaled, emin. rewrite <- Z.mul_assoc. f_equal.
    rewrite <- (pow2_split (52 - l) (l - (53 - 1) - -1074)) by lia. f_equal. ring.
Qed.

(** X14.  A quantity in whole shares, below [2^53], reaches the "Qty"
    cell of a position's or an order's row as the float of exactly that
    value, with its sign: nothing is rounded. *)
Theorem whole_quantities_are_exact :
  (forall (p : Position.t) (row : position_row) (s : string) (neg : bool) (n : Z),
      position_row_of p = Ok row ->
      Position.qty p = VStr s ->
      reads_decimal s neg n 1 ->
      0 <= n < 2 ^ 53 ->
      exists m e, pr_Qty row = FFin neg m e /\ emin <= e /\ scaled m e = n * 2 ^ (- emin))
  /\ (forall (o : Order.t) (row : order_row) (s : string) (neg : bool) (n : Z),
         order_row_of o = Ok row ->
         Order.filled_qty o = VStr s ->
         reads_decimal s neg n 1 ->
         0 <= n < 2 ^ 53 ->
         exists m e, or_Qty row = FFin neg m e /\ emin <= e /\ scaled m e = n * 2 ^ (- emin)).
Proof.
  split.
  - intros p row s neg n Hrow Hq Hs Hn.
    destruct (position_row_keeps p row Hrow) as (_ & _ & Hqty).
    rewrite Hq in Hqty. cbn [py_float] in Hqty.
    rewrite (float_of_decimal s neg n 1) in Hqty by (lia || exact Hs).
    injection Hqty as <-. apply round64_whole. exact Hn.
  - intros o row s neg n Hrow Hq Hs Hn. unfold order_row_of in Hrow.
    rewrite Hq in Hrow. cbn [py_float] in Hrow.
    rewrite (float_of_decimal s neg n 1) in Hrow by (lia || exact Hs).
    cbn [bind] in Hrow.
    destruct (py_float (Order.filled_avg_price o)); [| discriminate].
    destruct (filled_at_text (Order.filled_at o)); [| discriminate].
    cbn [bind] in Hrow. injection Hrow as <-. cbn [or_Qty]. apply round64_whole. exact Hn.
Qed.

Lemma whole_quantities_are_exact_witness :
  exists m e,
    pr_Qty {| pr_Symbol := "AAPL"; pr_Qty := of_Z 10; pr_Side := "Long";
              pr_Market_Value := "$1,753.20"; pr_Cost_Basis := "$1,664.64";
              pr_Unrealized_PL := "$88.56"; pr_Unrealized_PL_pct := "5.32%" |}
    = FFin false m e
    /\ emin <= e /\ scaled m e = 10 * 2 ^ (- emin).
Proof.
  apply (proj1 whole_quantities_are_exact sample_position _ "10" false 10).
  - vm_compute. reflexivity.
  - reflexivity.
  - exists "10", 10, 0. repeat split.
  - lia.
Defined.

(** ** The "Filled At" column *)





















